(** * pdf-shrinker: the level table, option validation and the Ghostscript
      run of [index.js], embedded and verified.

    The program is a Node.js command-line tool.  Its own code is modelled
    function by function ([validateOptions], [compressPdf] with its event
    handlers, [getGsOptionsForLevel]); the pieces of the JavaScript runtime it
    calls ([parseInt], [String.prototype.toLowerCase], [endsWith],
    [path.parse], [path.join], [fs.existsSync], [fs.statSync]) are modelled in
    the modules [JS], [Path] and [Fs] after ECMA-262 and Node's POSIX [path].

    Strings are sequences of code units below 256 (Rocq's [string]); numbers
    that the program only compares or prints as integers are [Z]. *)

From Stdlib Require Import ZArith List String Ascii Bool Lia.
From Stdlib Require Import DecimalString.
Import ListNotations.
Open Scope string_scope.
Open Scope Z_scope.

(** ** The JavaScript runtime functions the program calls *)

Module JS.

Definition code (c : ascii) : N := N_of_ascii c.

(** [String.prototype.toLowerCase], on code units below 256: the ASCII
    capitals and the Latin-1 capitals (all of U+00C0..U+00DE but the
    multiplication sign U+00D7) move up by 32. *)
Definition lowerChar (c : ascii) : ascii :=
  let n := code c in
  if ((65 <=? n) && (n <=? 90))%N then ascii_of_N (n + 32)
  else if ((192 <=? n) && (n <=? 222) && negb (n =? 215))%N
       then ascii_of_N (n + 32)
  else c.

Fixpoint toLowerCase (s : string) : string :=
  match s with
  | EmptyString => EmptyString
  | String c r => String (lowerChar c) (toLowerCase r)
  end.

(** [s.endsWith(suffix)]: the last [length suffix] code units of [s] are
    [suffix]. *)
Definition endsWith (s suffix : string) : bool :=
  let n := String.length s in
  let k := String.length suffix in
  (k <=? n)%nat && String.eqb (substring (n - k) k s) suffix.

(** [StrWhiteSpaceChar] of ECMA-262 among the code units below 256: TAB, LF,
    VT, FF, CR, SP and NBSP. *)
Definition isWhiteSpace (c : ascii) : bool :=
  let n := code c in
  ((n =? 9) || (n =? 10) || (n =? 11) || (n =? 12) || (n =? 13)
   || (n =? 32) || (n =? 160))%N.

Fixpoint trimStart (s : string) : string :=
  match s with
  | String c r => if isWhiteSpace c then trimStart r else s
  | EmptyString => EmptyString
  end.

Definition reverse (s : string) : string :=
  string_of_list_ascii (rev (list_ascii_of_string s)).

(** [s.trim()]. *)
Definition trim (s : string) : string :=
  reverse (trimStart (reverse (trimStart s))).

(** Value of a digit in the given radix, if it is one. *)
Definition digitValue (radix : Z) (c : ascii) : option Z :=
  let n := Z.of_N (code c) in
  let v := if (48 <=? n) && (n <=? 57) then Some (n - 48)
           else if (97 <=? n) && (n <=? 122) then Some (n - 87)
           else if (65 <=? n) && (n <=? 90) then Some (n - 55)
           else None in
  match v with
  | Some d => if d <? radix then Some d else None
  | None => None
  end.

(** The longest prefix of radix-[radix] digits of [s], read left to right
    with accumulator [acc]; [seen] tells whether a digit was read. *)
Fixpoint digits (radix : Z) (s : string) (seen : bool) (acc : Z)
  : option Z :=
  match s with
  | String c r =>
      match digitValue radix c with
      | Some d => digits radix r true (acc * radix + d)
      | None => if seen then Some acc else None
      end
  | EmptyString => if seen then Some acc else None
  end.

(** [parseInt(string)] with no radix argument (ECMA-262 19.2.5): leading
    white space is dropped, then an optional sign, then a [0x]/[0X] prefix
    selects radix 16 (radix 10 otherwise), and the longest prefix of digits
    is read; what follows the digits is ignored.  [None] stands for NaN.
    The value is the exact integer: the program only compares it with 1 and
    5 and switches on it, and the rounding to a double of a numeral of more
    than 15 digits changes none of these. *)
Definition parseInt (input : string) : option Z :=
  let s := trimStart input in
  let '(sign, s) :=
    match s with
    | String "-" r => (-1, r)
    | String "+" r => (1, r)
    | _ => (1, s)
    end in
  let '(radix, s) :=
    match s with
    | String "0" (String "x" r) => (16, r)
    | String "0" (String "X" r) => (16, r)
    | _ => (10, s)
    end in
  match digits radix s false 0 with
  | Some n => Some (sign * n)
  | None => None
  end.

(** [`${n}`] for an integer-valued number. *)
Definition numberToString (n : Z) : string :=
  NilZero.string_of_int (Z.to_int n).

End JS.

(** ** Node's POSIX [path] module: [parse], [normalize], [join] *)

Module Path.

Record ParsedPath := mkParsed
  { root : string; dir : string; base : string; ext : string;
    name : string }.

Definition len (s : string) : Z := Z.of_nat (String.length s).

(** [s.slice(a, b)] for [0 <= a]. *)
Definition slice (s : string) (a b : Z) : string :=
  substring (Z.to_nat a) (Z.to_nat (b - a)) s.

Definition isSlash (c : ascii) : bool := Ascii.eqb c "/".
Definition isDot (c : ascii) : bool := Ascii.eqb c ".".

Definition isAbsolute (path : string) : bool :=
  match path with
  | String c _ => isSlash c
  | EmptyString => false
  end.

(** The variables of the backwards scan of [parse]; [-1] is "not set". *)
Record Scan := mkScan
  { startDot : Z; startPart : Z; scanEnd : Z; matchedSlash : bool;
    preDotState : Z }.

Definition scan0 : Scan := mkScan (-1) 0 (-1) true 0.

(** The loop [for (; i >= start; --i)] of [parse]: [cs] holds the code
    units at the indices [i, i-1, ..., start], in that order. *)
Fixpoint scan (cs : list ascii) (i : Z) (st : Scan) : Scan :=
  match cs with
  | [] => st
  | c :: cs' =>
      if isSlash c then
        if negb (matchedSlash st)
        then mkScan (startDot st) (i + 1) (scanEnd st) (matchedSlash st)
                    (preDotState st)
        else scan cs' (i - 1) st
      else
        let st1 :=
          if scanEnd st =? -1
          then mkScan (startDot st) (startPart st) (i + 1) false
                      (preDotState st)
          else st in
        let st2 :=
          if isDot c then
            if startDot st1 =? -1
            then mkScan i (startPart st1) (scanEnd st1) (matchedSlash st1)
                        (preDotState st1)
            else if negb (preDotState st1 =? 1)
            then mkScan (startDot st1) (startPart st1) (scanEnd st1)
                        (matchedSlash st1) 1
            else st1
          else if negb (startDot st1 =? -1)
          then mkScan (startDot st1) (startPart st1) (scanEnd st1)
                      (matchedSlash st1) (-1)
          else st1 in
        scan cs' (i - 1) st2
  end.

Definition parse (path : string) : ParsedPath :=
  if len path =? 0 then mkParsed "" "" "" "" "" else
  let abs := isAbsolute path in
  let start := if abs then 1 else 0 in
  let st := scan (rev (list_ascii_of_string (slice path start (len path))))
                 (len path - 1) scan0 in
  let '(b, e, n) :=
    if negb (scanEnd st =? -1) then
      let from := if (startPart st =? 0) && abs then 1 else startPart st in
      if (startDot st =? -1) || (preDotState st =? 0)
         || ((preDotState st =? 1) && (startDot st =? scanEnd st - 1)
             && (startDot st =? startPart st + 1))
      then (slice path from (scanEnd st), "", slice path from (scanEnd st))
      else (slice path from (scanEnd st),
            slice path (startDot st) (scanEnd st),
            slice path from (startDot st))
    else ("", "", "") in
  let d := if startPart st >? 0 then slice path 0 (startPart st - 1)
           else if abs then "/" else "" in
  mkParsed (if abs then "/" else "") d b e n.

(** The segments of a path: the substrings between its slashes. *)
Fixpoint segments (s : string) (cur : string) : list string :=
  match s with
  | EmptyString => [cur]
  | String c r =>
      if isSlash c then cur :: segments r ""
      else segments r (cur ++ String c "")
  end.

(** [normalizeString], segment by segment: an empty segment or [.] is
    dropped; [..] removes the last kept segment, or is kept itself (when
    the path is relative) if there is none or the last one is [..]; any
    other segment is kept.  [res] is the kept segments, last one first. *)
Fixpoint normalizeSegments (allowAboveRoot : bool) (segs res : list string)
  : list string :=
  match segs with
  | [] => rev res
  | seg :: segs' =>
      if String.eqb seg "" || String.eqb seg "." then
        normalizeSegments allowAboveRoot segs' res
      else if String.eqb seg ".." then
        match res with
        | top :: rest =>
            if String.eqb top ".."
            then normalizeSegments allowAboveRoot segs'
                   (if allowAboveRoot then ".." :: res else res)
            else normalizeSegments allowAboveRoot segs' rest
        | [] =>
            normalizeSegments allowAboveRoot segs'
              (if allowAboveRoot then [".."] else [])
        end
      else normalizeSegments allowAboveRoot segs' (seg :: res)
  end.

Definition normalizeString (path : string) (allowAboveRoot : bool)
  : string :=
  String.concat "/" (normalizeSegments allowAboveRoot (segments path "") []).

Definition normalize (path : string) : string :=
  if len path =? 0 then "." else
  let abs := isAbsolute path in
  let trailingSeparator := JS.endsWith path "/" in
  let p := normalizeString path (negb abs) in
  if len p =? 0 then
    if abs then "/" else if trailingSeparator then "./" else "."
  else
    let p := if trailingSeparator then p ++ "/" else p in
    if abs then "/" ++ p else p.

(** [path.join(a, b)]: the non-empty arguments, joined by [/] and
    normalized. *)
Definition join (a b : string) : string :=
  let joined :=
    if len a =? 0 then (if len b =? 0 then None else Some b)
    else if len b =? 0 then Some a
    else Some (a ++ "/" ++ b) in
  match joined with
  | None => "."
  | Some j => normalize j
  end.

End Path.

(** ** The file system, as [fs.existsSync] and [fs.statSync] see it *)

Module Fs.

(** [existsSync p] tells whether [p] names something; [statSize p] is the
    [size] field of [statSync(p)], which the program reads only for a path
    it has just seen to exist. *)
Record FileSystem := mkFs
  { existsSync : string -> bool; statSize : string -> N }.

End Fs.

(** ** The level table: [getGsOptionsForLevel] *)

(** Common options for all compression levels. *)
Definition baseOptions : list string :=
  [ "-sDEVICE=pdfwrite";
    "-dNOPAUSE";
    "-dQUIET";
    "-dBATCH";
    "-dSAFER" ].

Definition level3Options : list string :=
  baseOptions ++
  [ "-dPDFSETTINGS=/ebook";
    "-dCompatibilityLevel=1.5";
    "-dColorImageResolution=110";
    "-dGrayImageResolution=110";
    "-dMonoImageResolution=150";
    "-dColorImageDownsampleType=/Average";
    "-dGrayImageDownsampleType=/Average";
    "-dMonoImageDownsampleType=/Bicubic";
    "-dAutoFilterColorImages=true";
    "-dAutoFilterGrayImages=true";
    "-dColorImageFilter=/DCTEncode";
    "-dGrayImageFilter=/DCTEncode";
    "-dJPEGQ=80" ].

(** The [switch (level)] of the source.  Its [default] branch calls
    [getGsOptionsForLevel(3)], which is the [case 3] list. *)
Definition getGsOptionsForLevel (level : Z) : list string :=
  match level with
  | 1 =>
      baseOptions ++
      [ "-dPDFSETTINGS=/prepress";
        "-dCompatibilityLevel=1.7";
        "-dColorImageResolution=300";
        "-dGrayImageResolution=300";
        "-dMonoImageResolution=300";
        "-dColorImageDownsampleType=/Bicubic";
        "-dGrayImageDownsampleType=/Bicubic";
        "-dMonoImageDownsampleType=/Bicubic";
        "-dAutoFilterColorImages=false";
        "-dAutoFilterGrayImages=false";
        "-dColorImageFilter=/DCTEncode";
        "-dGrayImageFilter=/DCTEncode";
        "-dJPEGQ=95" ]
  | 2 =>
      baseOptions ++
      [ "-dPDFSETTINGS=/printer";
        "-dCompatibilityLevel=1.6";
        "-dColorImageResolution=150";
        "-dGrayImageResolution=150";
        "-dMonoImageResolution=200";
        "-dColorImageDownsampleType=/Bicubic";
        "-dGrayImageDownsampleType=/Bicubic";
        "-dMonoImageDownsampleType=/Bicubic";
        "-dAutoFilterColorImages=true";
        "-dAutoFilterGrayImages=true";
        "-dColorImageFilter=/DCTEncode";
        "-dGrayImageFilter=/DCTEncode";
        "-dJPEGQ=85" ]
  | 3 => level3Options
  | 4 =>
      baseOptions ++
      [ "-dPDFSETTINGS=/ebook";
        "-dCompatibilityLevel=1.5";
        "-dColorImageResolution=96";
        "-dGrayImageResolution=96";
        "-dMonoImageResolution=150";
        "-dColorImageDownsampleType=/Average";
        "-dGrayImageDownsampleType=/Average";
        "-dMonoImageDownsampleType=/Subsample";
        "-dAutoFilterColorImages=true";
        "-dAutoFilterGrayImages=true";
        "-dColorImageFilter=/DCTEncode";
        "-dGrayImageFilter=/DCTEncode";
        "-dJPEGQ=75" ]
  | 5 =>
      baseOptions ++
      [ "-dPDFSETTINGS=/screen";
        "-dCompatibilityLevel=1.4";
        "-dColorImageResolution=72";
        "-dGrayImageResolution=72";
        "-dMonoImageResolution=72";
        "-dColorImageDownsampleType=/Average";
        "-dGrayImageDownsampleType=/Average";
        "-dMonoImageDownsampleType=/Subsample";
        "-dAutoFilterColorImages=true";
        "-dAutoFilterGrayImages=true";
        "-dColorImageFilter=/DCTEncode";
        "-dGrayImageFilter=/DCTEncode";
        "-dJPEGQ=50";
        "-dEmbedAllFonts=false";
        "-dSubsetFonts=true";
        "-dCompressFonts=true";
        "-dConvertCMYKImagesToRGB=true";
        "-dDetectDuplicateImages=true";
        "-dOptimize=true" ]
  | _ => level3Options
  end.


(** ** Options, errors and console output *)

(** The options object as commander hands it over: [output] is [undefined]
    ([None]) when [-o] is not given, [level] is the raw string (['3'] by
    default). *)
Module Raw.
Record Options := mkOptions
  { input : string; output : option string; level : string;
    verbose : bool }.
End Raw.

(** The same object once [validateOptions] has filled in [output] and
    replaced [level] by the parsed number. *)
Module Validated.
Record Options := mkOptions
  { input : string; output : string; level : Z; verbose : bool }.
End Validated.

(** One constructor for each [new Error(...)] of the program, under the name
    the specification gives the condition. *)
Inductive Error : Type :=
| InputNotFound (input : string)
| InvalidInputType
| InvalidLevel
| OutputMissing
| EngineFailure (code : option Z) (stderrText : string)
| EngineNotFound
| EngineStartFailure (message : string).

(** [`${code}`] for the exit code of the ['close'] event, which is [null]
    when a signal ended the process. *)
Definition codeToString (code : option Z) : string :=
  match code with
  | Some n => JS.numberToString n
  | None => "null"
  end.

(** The [message] of each error. *)
Definition message (e : Error) : string :=
  match e with
  | InputNotFound input => "Input file not found: " ++ input
  | InvalidInputType => "Input file must be a PDF"
  | InvalidLevel => "Compression level must be between 1 and 5"
  | OutputMissing =>
      "Output file was not created despite successful Ghostscript execution"
  | EngineFailure code stderrText =>
      "Ghostscript exited with code " ++ codeToString code ++ ": "
      ++ stderrText
  | EngineNotFound =>
      "Ghostscript (gs) executable not found. Please make sure Ghostscript is installed on your system."
  | EngineStartFailure msg => "Failed to start Ghostscript process: " ++ msg
  end.

(** The lines the program writes to the console.  A size in MB, the ratio and
    the percentage are printed with [toFixed] from floating-point quotients;
    their lines carry the byte counts they are computed from. *)
Inductive LogLine : Type :=
| Text (line : string)
| InputSizeLine (inputSizeBytes : N)
| SuccessLines (inputSizeBytes outputSizeBytes : N).

(** Computations that write to the console and may throw. *)
Definition M (A : Type) : Type := (list LogLine * (Error + A))%type.

Definition ret {A} (a : A) : M A := ([], inr a).
Definition throw {A} (e : Error) : M A := ([], inl e).
Definition console_log (l : LogLine) : M unit := ([l], inr tt).

Definition bind {A B} (m : M A) (f : A -> M B) : M B :=
  match m with
  | (w, inl e) => (w, inl e)
  | (w, inr a) => let '(w', r) := f a in ((w ++ w')%list, r)
  end.

Notation "x <- m ;; k" := (bind m (fun x => k))
  (at level 61, m at next level, right associativity).
Notation "m ;;; k" := (bind m (fun _ => k))
  (at level 61, right associativity).

(** ** [validateOptions] *)

(** [!options.output]: no output given, or the empty string. *)
Definition outputAbsent (o : Raw.Options) : bool :=
  match Raw.output o with
  | None => true
  | Some s => String.eqb s ""
  end.

(** The default output file: [path.join(inputPath.dir,
    `${inputPath.name}-compressed.pdf`)]. *)
Definition defaultOutput (input : string) : string :=
  let inputPath := Path.parse input in
  Path.join (Path.dir inputPath) (Path.name inputPath ++ "-compressed.pdf").

Definition validateOptions (fs : Fs.FileSystem) (options : Raw.Options)
  : M Validated.Options :=
  (* Check if input file exists *)
  (if negb (Fs.existsSync fs (Raw.input options))
   then throw (InputNotFound (Raw.input options)) else ret tt) ;;;
  (* Check if input file is a PDF *)
  (if negb (JS.endsWith (JS.toLowerCase (Raw.input options)) ".pdf")
   then throw InvalidInputType else ret tt) ;;;
  (* Set default output file if not provided *)
  output <-
    (if outputAbsent options then
       console_log
         (Text ("No output specified, using: "
                ++ defaultOutput (Raw.input options))) ;;;
       ret (defaultOutput (Raw.input options))
     else ret (match Raw.output options with Some s => s | None => "" end)) ;;
  (* Validate compression level *)
  match JS.parseInt (Raw.level options) with
  | None => throw InvalidLevel
  | Some level =>
      if (level <? 1) || (level >? 5) then throw InvalidLevel
      else ret (Validated.mkOptions (Raw.input options) output level
                  (Raw.verbose options))
  end.

(** ** [compressPdf]: from the options to the spawned process *)

(** The promise that [compressPdf] returns once Ghostscript is spawned. *)
Inductive Promise : Type :=
| Pending
| Resolved
| Rejected (e : Error).

(** What the closures of [compressPdf] share while Ghostscript runs: the
    arguments of [spawn], the validated options, the input size, the progress
    bar ([barValue] out of 100, [barActive] until [stop()]), the interval
    timer [progressUpdater] ([timerActive] until [clearInterval]), the two
    output buffers, the promise, and the console lines written since the
    spawn. *)
Record Run := mkRun
  { command : string;
    gsOptions : list string;
    options : Validated.Options;
    inputSizeBytes : N;
    barValue : Z;
    barActive : bool;
    timerActive : bool;
    stdoutData : string;
    stderrData : string;
    promise : Promise;
    console : list LogLine }.

(** The argument vector: [getGsOptionsForLevel(level)], then
    [gsOptions.push(`-sOutputFile=${output}`)] and [gsOptions.push(input)]. *)
Definition gsArguments (level : Z) (output input : string) : list string :=
  (getGsOptionsForLevel level ++ [("-sOutputFile=" ++ output)%string]
     ++ [input])%list.

(** The body of the outer [try]: validation, the start-up lines, the progress
    bar started at 0 of 100, and [spawn('gs', gsOptions)]. *)
Definition spawnGs (fs : Fs.FileSystem) (raw : Raw.Options) : M Run :=
  v <- validateOptions fs raw ;;
  console_log (Text "Starting PDF compression...") ;;;
  console_log (Text ("Input: " ++ Validated.input v)) ;;;
  console_log (Text ("Output: " ++ Validated.output v)) ;;;
  console_log
    (Text ("Compression level: " ++ JS.numberToString (Validated.level v))) ;;;
  console_log (InputSizeLine (Fs.statSize fs (Validated.input v))) ;;;
  (if Validated.verbose v
   then console_log
          (Text ("Ghostscript command: gs "
                 ++ String.concat " "
                      (gsArguments (Validated.level v) (Validated.output v)
                         (Validated.input v))))
   else ret tt) ;;;
  ret (mkRun "gs"
         (gsArguments (Validated.level v) (Validated.output v)
            (Validated.input v))
         v (Fs.statSize fs (Validated.input v))
         0 true true "" "" Pending []).

(** [compressPdf]: an error thrown before the spawn reaches the outer
    [catch], which prints it and ends the process with [process.exit(1)];
    otherwise Ghostscript runs and the promise is pending. *)
Definition compressPdf (fs : Fs.FileSystem) (raw : Raw.Options) : M Run :=
  match spawnGs fs raw with
  | (w, inl e) => ((w ++ [Text ("Error: " ++ message e)%string])%list, inl e)
  | (w, inr run) => (w, inr run)
  end.

(** The process [compressPdf] spawns, if it spawns one. *)
Definition spawned (fs : Fs.FileSystem) (raw : Raw.Options)
  : option (string * list string) :=
  match compressPdf fs raw with
  | (_, inr run) => Some (command run, gsOptions run)
  | (_, inl _) => None
  end.

(** ** The event handlers of the running process *)

Definition setBar (value : Z) (r : Run) : Run :=
  mkRun (command r) (gsOptions r) (options r) (inputSizeBytes r)
    value (barActive r) (timerActive r) (stdoutData r) (stderrData r)
    (promise r) (console r).

Definition stopBar (r : Run) : Run :=
  mkRun (command r) (gsOptions r) (options r) (inputSizeBytes r)
    (barValue r) false (timerActive r) (stdoutData r) (stderrData r)
    (promise r) (console r).

Definition clearInterval (r : Run) : Run :=
  mkRun (command r) (gsOptions r) (options r) (inputSizeBytes r)
    (barValue r) (barActive r) false (stdoutData r) (stderrData r)
    (promise r) (console r).

Definition log (l : LogLine) (r : Run) : Run :=
  mkRun (command r) (gsOptions r) (options r) (inputSizeBytes r)
    (barValue r) (barActive r) (timerActive r) (stdoutData r) (stderrData r)
    (promise r) (console r ++ [l]).

(** [resolve()] and [reject(e)] settle a pending promise and do nothing to a
    settled one. *)
Definition settle (p : Promise) (r : Run) : Run :=
  match promise r with
  | Pending =>
      mkRun (command r) (gsOptions r) (options r) (inputSizeBytes r)
        (barValue r) (barActive r) (timerActive r) (stdoutData r)
        (stderrData r) p (console r)
  | _ => r
  end.

(** The callback of [setInterval(..., 200)]. *)
Definition progressUpdater (r : Run) : Run :=
  setBar (Z.min (barValue r + 5) 99) r.

(** [gsProcess.stdout.on('data', ...)]. *)
Definition onStdoutData (data : string) (r : Run) : Run :=
  let r := mkRun (command r) (gsOptions r) (options r) (inputSizeBytes r)
             (barValue r) (barActive r) (timerActive r)
             (stdoutData r ++ data) (stderrData r) (promise r) (console r) in
  if Validated.verbose (options r)
  then log (Text ("GS stdout: " ++ JS.trim data)) r else r.

(** [gsProcess.stderr.on('data', ...)]. *)
Definition onStderrData (data : string) (r : Run) : Run :=
  let r := mkRun (command r) (gsOptions r) (options r) (inputSizeBytes r)
             (barValue r) (barActive r) (timerActive r)
             (stdoutData r) (stderrData r ++ data) (promise r) (console r) in
  if Validated.verbose (options r)
  then log (Text ("GS stderr: " ++ JS.trim data)) r else r.

(** [gsProcess.on('close', (code) => ...)], with the file system as it is
    when the event is handled. *)
Definition onClose (code : option Z) (fs : Fs.FileSystem) (r : Run) : Run :=
  let r := clearInterval r in
  match code with
  | Some 0 =>
      let r := stopBar (setBar 100 r) in
      if Fs.existsSync fs (Validated.output (options r)) then
        settle Resolved
          (log (SuccessLines (inputSizeBytes r)
                  (Fs.statSize fs (Validated.output (options r)))) r)
      else settle (Rejected OutputMissing) r
  | _ =>
      settle (Rejected (EngineFailure code (stderrData r))) (stopBar r)
  end.

(** [gsProcess.on('error', (err) => ...)], with [err.code] and
    [err.message]. *)
Definition onError (errCode errMessage : string) (r : Run) : Run :=
  let r := stopBar (clearInterval r) in
  if String.eqb errCode "ENOENT" then settle (Rejected EngineNotFound) r
  else settle (Rejected (EngineStartFailure errMessage)) r.

(** What the event loop delivers to the closures. *)
Inductive Event : Type :=
| Tick
| StdoutData (data : string)
| StderrData (data : string)
| Close (code : option Z) (fs : Fs.FileSystem)
| SpawnError (errCode errMessage : string).

(** One turn of the event loop.  A cleared interval never fires. *)
Definition handle (r : Run) (ev : Event) : Run :=
  match ev with
  | Tick => if timerActive r then progressUpdater r else r
  | StdoutData data => onStdoutData data r
  | StderrData data => onStderrData data r
  | Close code fs => onClose code fs r
  | SpawnError errCode errMessage => onError errCode errMessage r
  end.

Definition runEvents (r : Run) (evs : list Event) : Run :=
  fold_left handle evs r.

(** ** The mapping table of the specification *)

Module Spec.

Inductive Downsample := Bicubic | Average | Subsample.

(** One row of the table: preset, compatibility version, the three
    resolutions, the three downsampling filters, the JPEG quality, and
    whether the row has the extra flags. *)
Record LevelProfile := mkProfile
  { preset : string; compatibility : string;
    colorDpi : Z; grayDpi : Z; monoDpi : Z;
    colorFilter : Downsample; grayFilter : Downsample;
    monoFilter : Downsample;
    jpegQuality : Z; extras : bool }.

Definition table (level : Z) : option LevelProfile :=
  match level with
  | 1 => Some (mkProfile "prepress" "1.7" 300 300 300
                 Bicubic Bicubic Bicubic 95 false)
  | 2 => Some (mkProfile "printer" "1.6" 150 150 200
                 Bicubic Bicubic Bicubic 85 false)
  | 3 => Some (mkProfile "ebook" "1.5" 110 110 150
                 Average Average Bicubic 80 false)
  | 4 => Some (mkProfile "ebook" "1.5" 96 96 150
                 Average Average Subsample 75 false)
  | 5 => Some (mkProfile "screen" "1.4" 72 72 72
                 Average Average Subsample 50 true)
  | _ => None
  end.

(** How the engine spells a filter. *)
Definition filterName (d : Downsample) : string :=
  match d with
  | Bicubic => "/Bicubic"
  | Average => "/Average"
  | Subsample => "/Subsample"
  end.

(** The extra flags of the last row: font embedding off, fonts subset and
    compressed, CMYK images converted to RGB, duplicate images detected,
    general optimization on. *)
Definition extraFlags : list (string * string) :=
  [ ("EmbedAllFonts", "false"); ("SubsetFonts", "true");
    ("CompressFonts", "true"); ("ConvertCMYKImagesToRGB", "true");
    ("DetectDuplicateImages", "true"); ("Optimize", "true") ].

End Spec.

(** [stripPrefix p s] is what follows [p] in [s], if [s] starts with [p]. *)
Fixpoint stripPrefix (p s : string) : option string :=
  match p, s with
  | EmptyString, _ => Some s
  | String a p', String b s' =>
      if Ascii.eqb a b then stripPrefix p' s' else None
  | String _ _, EmptyString => None
  end.

(** The values that a parameter list gives the directive [-d<key>=], in the
    list's order. *)
Fixpoint valuesOf (key : string) (params : list string) : list string :=
  match params with
  | [] => []
  | p :: rest =>
      match stripPrefix ("-d" ++ key ++ "=") p with
      | Some v => v :: valuesOf key rest
      | None => valuesOf key rest
      end
  end.

(** A level argument that parses to an integer from 1 to 5. *)
Definition levelInRange (parsed : option Z) : bool :=
  match parsed with
  | Some level => (1 <=? level) && (level <=? 5)
  | None => false
  end.

(** ** Predicates and samples used in the statements *)

(** The output path and the notice of the third step of [validateOptions]. *)
Definition resolvedOutput (raw : Raw.Options) : string :=
  if outputAbsent raw then defaultOutput (Raw.input raw)
  else match Raw.output raw with Some s => s | None => "" end.

Definition outputNotice (raw : Raw.Options) : list LogLine :=
  if outputAbsent raw
  then [Text ("No output specified, using: " ++ defaultOutput (Raw.input raw))]
  else [].

Definition hasPdfSuffix (input : string) : bool :=
  JS.endsWith (JS.toLowerCase input) ".pdf".

(** The events that end the process: its exit and a failed spawn. *)
Definition isTerminal (ev : Event) : bool :=
  match ev with
  | Close _ _ | SpawnError _ _ => true
  | _ => false
  end.

(** The standard-error text of a sequence of events, in order of arrival. *)
Fixpoint stderrOf (evs : list Event) : string :=
  match evs with
  | [] => ""
  | StderrData data :: rest => data ++ stderrOf rest
  | _ :: rest => stderrOf rest
  end.

Definition isSuccessLine (l : LogLine) : bool :=
  match l with SuccessLines _ _ => true | _ => false end.

(** The run has printed its success report. *)
Definition successReported (r : Run) : bool :=
  existsb isSuccessLine (console r).

(** No event of the sequence is terminal: the process is still running. *)
Definition nonterminal (evs : list Event) : Prop :=
  forallb (fun ev => negb (isTerminal ev)) evs = true.

(** What the scan of [Path.parse] does with a code unit that is not a
    slash: the body of its loop after the test for a slash. *)
Definition scanChar (c : ascii) (i : Z) (st : Path.Scan) : Path.Scan :=
  let st1 :=
    if Path.scanEnd st =? -1
    then Path.mkScan (Path.startDot st) (Path.startPart st) (i + 1) false
           (Path.preDotState st)
    else st in
  if Path.isDot c then
    if Path.startDot st1 =? -1
    then Path.mkScan i (Path.startPart st1) (Path.scanEnd st1)
           (Path.matchedSlash st1) (Path.preDotState st1)
    else if negb (Path.preDotState st1 =? 1)
    then Path.mkScan (Path.startDot st1) (Path.startPart st1)
           (Path.scanEnd st1) (Path.matchedSlash st1) 1
    else st1
  else if negb (Path.startDot st1 =? -1)
  then Path.mkScan (Path.startDot st1) (Path.startPart st1)
         (Path.scanEnd st1) (Path.matchedSlash st1) (-1)
  else st1.

(** Code units that are neither a slash nor a dot; strings without a slash;
    strings of plain code units. *)
Definition plain (c : ascii) : bool :=
  negb (Path.isSlash c) && negb (Path.isDot c).

Definition slashFree (s : string) : bool :=
  forallb (fun c => negb (Path.isSlash c)) (list_ascii_of_string s).

Definition plainString (s : string) : bool :=
  forallb plain (list_ascii_of_string s).

(** A path segment that [normalize] keeps as it is: not empty, not [.] or
    [..], and without a slash. *)
Definition ordinary (s : string) : bool :=
  negb (String.eqb s "") && negb (String.eqb s ".")
  && negb (String.eqb s "..") && slashFree s.

(** Sample requests for the closed instances below: a file system with the
    one file [docs/Report.PDF] of 1000 bytes, and after a run also the
    compressed file of 400 bytes. *)
Definition fsBefore : Fs.FileSystem :=
  Fs.mkFs (fun p => String.eqb p "docs/Report.PDF") (fun _ => 1000%N).

Definition fsAfter : Fs.FileSystem :=
  Fs.mkFs (fun p => String.eqb p "docs/Report.PDF"
                    || String.eqb p "docs/Report-compressed.pdf")
          (fun p => if String.eqb p "docs/Report.PDF" then 1000%N
                    else 400%N).

Definition request (level : string) : Raw.Options :=
  Raw.mkOptions "docs/Report.PDF" None level false.

(** ** Definitions for the further properties *)

(** The name of a parameter: what stands before its first [=]. *)
Fixpoint optionName (p : string) : string :=
  match p with
  | EmptyString => EmptyString
  | String c r => if Ascii.eqb c "=" then EmptyString else String c (optionName r)
  end.

(** The parameter is a switch of the engine: it starts with [-d] or [-s]. *)
Definition isSwitch (p : string) : bool :=
  match p with
  | String "-" (String "d" _) | String "-" (String "s" _) => true
  | _ => false
  end.

(** The number that a parameter list gives the directive [-d<key>=], when it
    gives it once. *)
Definition directiveNumber (key : string) (params : list string) : option Z :=
  match valuesOf key params with
  | [v] => JS.parseInt v
  | _ => None
  end.

(** Equality of parameter names, for [NoDup] by computation. *)
Fixpoint noDupNames (names : list string) : bool :=
  match names with
  | [] => true
  | n :: rest => negb (existsb (String.eqb n) rest) && noDupNames rest
  end.
(** The raw options with another [output]. *)
Definition withOutput (raw : Raw.Options) (output : option string)
  : Raw.Options :=
  Raw.mkOptions (Raw.input raw) output (Raw.level raw) (Raw.verbose raw).

(** The first code unit is a decimal digit. *)
Definition startsWithDigit (s : string) : bool :=
  match s with
  | String c _ =>
      match JS.digitValue 10 c with Some _ => true | None => false end
  | EmptyString => false
  end.
(** The standard-output text of a sequence of events. *)
Fixpoint stdoutOf (evs : list Event) : string :=
  match evs with
  | [] => ""
  | StdoutData data :: rest => data ++ stdoutOf rest
  | _ :: rest => stdoutOf rest
  end.


(** The lines that verbose mode echoes for a sequence of events. *)
Fixpoint echoOf (evs : list Event) : list LogLine :=
  match evs with
  | [] => []
  | StdoutData data :: rest =>
      Text ("GS stdout: " ++ JS.trim data) :: echoOf rest
  | StderrData data :: rest =>
      Text ("GS stderr: " ++ JS.trim data) :: echoOf rest
  | _ :: rest => echoOf rest
  end.

Definition isText (l : LogLine) : bool :=
  match l with Text _ => true | _ => false end.

(** The condition an error reports, apart from what it carries. *)
Inductive ErrorKind : Type :=
| KInputNotFound | KInvalidInputType | KInvalidLevel | KOutputMissing
| KEngineFailure | KEngineNotFound | KEngineStartFailure.

Definition errorKind (e : Error) : ErrorKind :=
  match e with
  | InputNotFound _ => KInputNotFound
  | InvalidInputType => KInvalidInputType
  | InvalidLevel => KInvalidLevel
  | OutputMissing => KOutputMissing
  | EngineFailure _ _ => KEngineFailure
  | EngineNotFound => KEngineNotFound
  | EngineStartFailure _ => KEngineStartFailure
  end.

(** * Theorems *)

(** ** Strings *)

Local Abbreviation chars := list_ascii_of_string.

Lemma string_app_assoc (a b c : string) : ((a ++ b) ++ c = a ++ (b ++ c))%string.
Proof. induction a as [| x a IH]; cbn; [reflexivity | now rewrite IH]. Qed.

Lemma string_app_empty (a : string) : (a ++ "")%string = a.
Proof. induction a as [| x a IH]; cbn; [reflexivity | now rewrite IH]. Qed.

(** ** The level table *)

Lemma level_cases (L : Z) :
  1 <= L <= 5 -> L = 1 \/ L = 2 \/ L = 3 \/ L = 4 \/ L = 5.
Proof. lia. Qed.

Ltac each_level L H :=
  destruct (level_cases L H) as [-> | [-> | [-> | [-> | ->]]]].

(** C1.  For every level from 1 to 5 the parameter list of
    [getGsOptionsForLevel] gives each directive of the table exactly once and
    with the value of the table's row: quality preset, compatibility version,
    the color, gray and mono image resolutions, the three downsampling
    filters and the JPEG quality; the extra flags (font embedding off, fonts
    subset and compressed, CMYK to RGB, duplicate-image detection, general
    optimization) are given at level 5 and at no other level. *)
Theorem C1_level_table (L : Z) :
  1 <= L <= 5 ->
  exists row,
    Spec.table L = Some row /\
    let params := getGsOptionsForLevel L in
    valuesOf "PDFSETTINGS" params = ["/" ++ Spec.preset row] /\
    valuesOf "CompatibilityLevel" params = [Spec.compatibility row] /\
    valuesOf "ColorImageResolution" params
      = [JS.numberToString (Spec.colorDpi row)] /\
    valuesOf "GrayImageResolution" params
      = [JS.numberToString (Spec.grayDpi row)] /\
    valuesOf "MonoImageResolution" params
      = [JS.numberToString (Spec.monoDpi row)] /\
    valuesOf "ColorImageDownsampleType" params
      = [Spec.filterName (Spec.colorFilter row)] /\
    valuesOf "GrayImageDownsampleType" params
      = [Spec.filterName (Spec.grayFilter row)] /\
    valuesOf "MonoImageDownsampleType" params
      = [Spec.filterName (Spec.monoFilter row)] /\
    valuesOf "JPEGQ" params = [JS.numberToString (Spec.jpegQuality row)] /\
    (Spec.extras row = true <-> L = 5) /\
    Forall (fun flag =>
              valuesOf (fst flag) params
              = if Spec.extras row then [snd flag] else [])
           Spec.extraFlags.
Proof.
  intros H.
  each_level L H; eexists; (split; [reflexivity |]); cbv zeta;
    repeat (split; [reflexivity |]);
    (split; [split; [discriminate || reflexivity | reflexivity || lia] |]);
    repeat constructor.
Qed.

Lemma C1_level_table_witness :
  1 <= 3 <= 5 /\
  exists row,
    Spec.table 3 = Some row /\
    valuesOf "JPEGQ" (getGsOptionsForLevel 3)
    = [JS.numberToString (Spec.jpegQuality row)].
Proof.
  split; [lia |].
  destruct (C1_level_table 3 ltac:(lia)) as [row [Hrow Hp]].
  exists row. split; [exact Hrow |]. apply Hp.
Defined.

(** ** Validation *)

(** [validateOptions] as a decision list: the three checks in the order in
    which the source makes them. *)
Lemma validateOptions_cases (fs : Fs.FileSystem) (raw : Raw.Options) :
  validateOptions fs raw =
  if negb (Fs.existsSync fs (Raw.input raw))
  then ([], inl (InputNotFound (Raw.input raw)))
  else if negb (hasPdfSuffix (Raw.input raw))
  then ([], inl InvalidInputType)
  else if levelInRange (JS.parseInt (Raw.level raw))
  then (outputNotice raw,
        inr (Validated.mkOptions (Raw.input raw) (resolvedOutput raw)
               (match JS.parseInt (Raw.level raw) with
                | Some l => l | None => 0 end)
               (Raw.verbose raw)))
  else (outputNotice raw, inl InvalidLevel).
Proof.
  unfold validateOptions, hasPdfSuffix, outputNotice, resolvedOutput.
  destruct (Fs.existsSync fs (Raw.input raw)); [| reflexivity].
  destruct (JS.endsWith (JS.toLowerCase (Raw.input raw)) ".pdf");
    [| reflexivity].
  cbn [negb bind throw ret console_log app].
  destruct (JS.parseInt (Raw.level raw)) as [l |]; cbn [levelInRange].
  - destruct (Z.ltb_spec l 1), (Z.gtb_spec l 5),
      (Z.leb_spec 1 l), (Z.leb_spec l 5); try lia;
      destruct (outputAbsent raw); reflexivity.
  - destruct (outputAbsent raw); reflexivity.
Qed.

(** What a successful validation tells about the raw options. *)
Lemma validateOptions_inr (fs : Fs.FileSystem) (raw : Raw.Options) w v :
  validateOptions fs raw = (w, inr v) ->
  Fs.existsSync fs (Raw.input raw) = true /\
  hasPdfSuffix (Raw.input raw) = true /\
  JS.parseInt (Raw.level raw) = Some (Validated.level v) /\
  1 <= Validated.level v <= 5 /\
  Validated.input v = Raw.input raw /\
  Validated.output v = resolvedOutput raw /\
  Validated.verbose v = Raw.verbose raw /\
  w = outputNotice raw.
Proof.
  rewrite validateOptions_cases.
  destruct (Fs.existsSync fs (Raw.input raw)); [| discriminate].
  destruct (hasPdfSuffix (Raw.input raw)); [| discriminate].
  destruct (JS.parseInt (Raw.level raw)) as [l |] eqn:Hl;
    cbn [negb levelInRange]; [| discriminate].
  destruct (Z.leb_spec 1 l) as [H1 | H1], (Z.leb_spec l 5) as [H5 | H5];
    cbn [andb]; try discriminate.
  intros Hv. inversion Hv; subst; cbn. repeat split; try reflexivity; lia.
Qed.

(** [compressPdf] spawns exactly when validation succeeds, and then with the
    validated options. *)
Lemma compressPdf_inr (fs : Fs.FileSystem) (raw : Raw.Options) w run :
  compressPdf fs raw = (w, inr run) ->
  exists w' v,
    validateOptions fs raw = (w', inr v) /\
    command run = "gs" /\
    gsOptions run
    = gsArguments (Validated.level v) (Validated.output v)
        (Validated.input v) /\
    options run = v /\
    inputSizeBytes run = Fs.statSize fs (Validated.input v) /\
    barValue run = 0 /\ barActive run = true /\ timerActive run = true /\
    stdoutData run = "" /\ stderrData run = "" /\
    promise run = Pending /\ console run = [].
Proof.
  unfold compressPdf, spawnGs.
  destruct (validateOptions fs raw) as [w' [e | v]].
  - cbn. discriminate.
  - cbn. destruct (Validated.verbose v); cbn; intros H; inversion H; subst;
      exists w', v; cbn; repeat split; reflexivity.
Qed.

Lemma compressPdf_inl (fs : Fs.FileSystem) (raw : Raw.Options) w e :
  validateOptions fs raw = (w, inl e) ->
  compressPdf fs raw = ((w ++ [Text ("Error: " ++ message e)%string])%list,
                        inl e)
  /\ spawned fs raw = None.
Proof.
  intros H. unfold spawned, compressPdf, spawnGs. rewrite H. cbn.
  split; reflexivity.
Qed.





(** [parseInt] reads a prefix and ignores the rest: these raw levels parse to
    4, 3, 3 and 2, and are accepted. *)
Lemma parseInt_reads_prefix :
  map JS.parseInt ["4.5"; "3abc"; "0x3"; " 2"]
  = [Some 4; Some 3; Some 3; Some 2].
Proof. reflexivity. Qed.

(** C4.  Validation fails with [InputNotFound] if the input path does not
    exist.  If the path does not end with [.pdf] in some mix of cases,
    validation fails, with [InvalidInputType] when the path exists (a missing
    path has failed the check before).  No process is spawned in either
    case. *)
Theorem C4_input_checks (fs : Fs.FileSystem) (raw : Raw.Options) :
  (Fs.existsSync fs (Raw.input raw) = false ->
   validateOptions fs raw = ([], inl (InputNotFound (Raw.input raw))) /\
   spawned fs raw = None)
  /\
  (hasPdfSuffix (Raw.input raw) = false ->
   (exists e, validateOptions fs raw = ([], inl e)) /\
   spawned fs raw = None /\
   (Fs.existsSync fs (Raw.input raw) = true ->
    validateOptions fs raw = ([], inl InvalidInputType))).
Proof.
  split.
  - intros Hex.
    assert (Hv : validateOptions fs raw
                 = ([], inl (InputNotFound (Raw.input raw))))
      by (rewrite validateOptions_cases, Hex; reflexivity).
    split; [exact Hv | apply (compressPdf_inl _ _ _ _ Hv)].
  - intros Hpdf.
    assert (Hv : exists e, validateOptions fs raw = ([], inl e)).
    { rewrite validateOptions_cases, Hpdf.
      destruct (Fs.existsSync fs (Raw.input raw)); cbn; eauto. }
    split; [exact Hv |]. split.
    + destruct Hv as [e Hv]. apply (compressPdf_inl _ _ _ _ Hv).
    + intros Hex. rewrite validateOptions_cases, Hex, Hpdf. reflexivity.
Qed.

Lemma C4_input_checks_witness :
  validateOptions fsBefore (Raw.mkOptions "docs/Missing.pdf" None "3" false)
  = ([], inl (InputNotFound "docs/Missing.pdf"))
  /\
  validateOptions (Fs.mkFs (fun _ => true) (fun _ => 7%N))
    (Raw.mkOptions "notes.txt" None "3" false)
  = ([], inl InvalidInputType).
Proof.
  split.
  - apply (proj1 (C4_input_checks fsBefore
                    (Raw.mkOptions "docs/Missing.pdf" None "3" false))).
    reflexivity.
  - apply (proj2 (C4_input_checks (Fs.mkFs (fun _ => true) (fun _ => 7%N))
                    (Raw.mkOptions "notes.txt" None "3" false)));
      reflexivity.
Defined.

(** C10.  The existence check comes first: a path that does not exist fails
    with [InputNotFound] whatever its suffix, also when it lacks [.pdf]; so
    [InvalidInputType] is raised only for paths that exist. *)
Theorem C10_existence_first (fs : Fs.FileSystem) (raw : Raw.Options) :
  (Fs.existsSync fs (Raw.input raw) = false ->
   snd (validateOptions fs raw) = inl (InputNotFound (Raw.input raw)) /\
   snd (validateOptions fs raw) <> inl InvalidInputType)
  /\
  (snd (validateOptions fs raw) = inl InvalidInputType ->
   Fs.existsSync fs (Raw.input raw) = true /\
   hasPdfSuffix (Raw.input raw) = false).
Proof.
  rewrite validateOptions_cases.
  destruct (Fs.existsSync fs (Raw.input raw));
    destruct (hasPdfSuffix (Raw.input raw)); cbn;
    try destruct (levelInRange _); cbn;
    split; intros H; try discriminate; split; congruence.
Qed.

Lemma C10_existence_first_witness :
  hasPdfSuffix "notes.txt" = false /\
  snd (validateOptions fsBefore (Raw.mkOptions "notes.txt" None "3" false))
  = inl (InputNotFound "notes.txt").
Proof.
  split; [reflexivity |].
  apply (proj1 (C10_existence_first fsBefore
                  (Raw.mkOptions "notes.txt" None "3" false))).
  reflexivity.
Defined.

(** ** Paths: what [path.parse] and [path.join] do to an input path *)

Lemma chars_app (a b : string) : chars (a ++ b) = (chars a ++ chars b)%list.
Proof. induction a as [| c a IH]; cbn; [reflexivity | now rewrite IH]. Qed.

Lemma chars_inj (a b : string) : chars a = chars b -> a = b.
Proof.
  intros H. rewrite <- (string_of_list_ascii_of_string a),
    <- (string_of_list_ascii_of_string b). now rewrite H.
Qed.

Lemma chars_length (s : string) : List.length (chars s) = String.length s.
Proof. induction s as [| c s IH]; cbn; [reflexivity | now rewrite IH]. Qed.

Lemma chars_substring (s : string) (n m : nat) :
  chars (substring n m s) = firstn m (skipn n (chars s)).
Proof.
  revert n m. induction s as [| c s IH]; intros n m.
  - destruct n, m; reflexivity.
  - destruct n as [| n].
    + destruct m as [| m]; cbn; [reflexivity |]. f_equal. apply (IH 0%nat m).
    + cbn. apply IH.
Qed.

Lemma firstn_length_app {A} (a b : list A) : firstn (List.length a) (a ++ b) = a.
Proof. induction a as [| x a IH]; cbn; [now destruct b | now rewrite IH]. Qed.

Lemma skipn_length_app {A} (a b : list A) : skipn (List.length a) (a ++ b) = b.
Proof. induction a as [| x a IH]; cbn; [reflexivity | exact IH]. Qed.

Lemma scan_step (c : ascii) (cs : list ascii) (i : Z) (st : Path.Scan) :
  Path.isSlash c = false ->
  Path.scan (c :: cs) i st = Path.scan cs (i - 1) (scanChar c i st).
Proof. intros H. cbn [Path.scan]. rewrite H. reflexivity. Qed.

Lemma scanChar_plain (c : ascii) (i e : Z) :
  Path.isDot c = false -> e <> -1 ->
  scanChar c i (Path.mkScan (-1) 0 e false 0) = Path.mkScan (-1) 0 e false 0.
Proof.
  intros Hd He. unfold scanChar. cbn [Path.scanEnd].
  rewrite (proj2 (Z.eqb_neq e (-1)) He), Hd. reflexivity.
Qed.

Lemma scanChar_name (c : ascii) (i d e pd : Z) :
  d <> -1 -> e <> -1 ->
  exists pd1,
    pd1 <> 0 /\
    scanChar c i (Path.mkScan d 0 e false pd) = Path.mkScan d 0 e false pd1.
Proof.
  intros Hd He. unfold scanChar. cbn [Path.scanEnd].
  rewrite (proj2 (Z.eqb_neq e (-1)) He).
  cbn [Path.startDot Path.startPart Path.scanEnd Path.matchedSlash
         Path.preDotState].
  rewrite (proj2 (Z.eqb_neq d (-1)) Hd). cbn [negb].
  destruct (Path.isDot c); [destruct (Z.eqb_spec pd 1) |]; cbn [negb];
    eexists; (split; [| reflexivity]); lia.
Qed.

Lemma scan_plain (l rest : list ascii) (i e : Z) :
  forallb plain l = true -> e <> -1 ->
  Path.scan (l ++ rest) i (Path.mkScan (-1) 0 e false 0)
  = Path.scan rest (i - Z.of_nat (List.length l)) (Path.mkScan (-1) 0 e false 0).
Proof.
  revert i. induction l as [| c l IH]; intros i Hl He.
  - cbn. f_equal. lia.
  - cbn in Hl. apply andb_prop in Hl. destruct Hl as [Hc Hl].
    unfold plain in Hc. apply andb_prop in Hc. destruct Hc as [Hs Hd].
    apply negb_true_iff in Hs, Hd.
    cbn [app]. rewrite scan_step, scanChar_plain, IH by assumption.
    f_equal. cbn [List.length]. lia.
Qed.

Lemma scan_first (c : ascii) (rest : list ascii) (i : Z) :
  plain c = true ->
  Path.scan (c :: rest) i Path.scan0
  = Path.scan rest (i - 1) (Path.mkScan (-1) 0 (i + 1) false 0).
Proof.
  intros Hc. unfold plain in Hc. apply andb_prop in Hc.
  destruct Hc as [Hs Hd]. apply negb_true_iff in Hs, Hd.
  rewrite scan_step by assumption. unfold scanChar. cbn. rewrite Hd.
  reflexivity.
Qed.

Lemma scan_dot (rest : list ascii) (i e : Z) :
  e <> -1 ->
  Path.scan ("."%char :: rest) i (Path.mkScan (-1) 0 e false 0)
  = Path.scan rest (i - 1) (Path.mkScan i 0 e false 0).
Proof.
  intros He. rewrite scan_step by reflexivity. unfold scanChar.
  cbn [Path.scanEnd]. rewrite (proj2 (Z.eqb_neq e (-1)) He). reflexivity.
Qed.

Lemma scan_name (l rest : list ascii) (i d e pd : Z) :
  forallb (fun c => negb (Path.isSlash c)) l = true ->
  d <> -1 -> e <> -1 ->
  exists pd',
    Path.scan (l ++ rest) i (Path.mkScan d 0 e false pd)
    = Path.scan rest (i - Z.of_nat (List.length l))
        (Path.mkScan d 0 e false pd')
    /\ (l <> [] -> pd' <> 0).
Proof.
  revert i pd. induction l as [| c l IH]; intros i pd Hl Hd He.
  - exists pd. cbn. split; [f_equal; lia | congruence].
  - cbn in Hl. apply andb_prop in Hl. destruct Hl as [Hc Hl].
    apply negb_true_iff in Hc.
    cbn [app]. rewrite scan_step by assumption.
    destruct (scanChar_name c i d e pd Hd He) as [pd1 [Hpd1 ->]].
    destruct (IH (i - 1) pd1 Hl Hd He) as [pd' [Hscan Hne]].
    destruct l as [| c' l].
    + exists pd1. cbn. split; [f_equal; lia | auto].
    + exists pd'. split; [| intros _; apply Hne; discriminate].
      rewrite Hscan. f_equal. cbn [List.length]. lia.
Qed.

Lemma scan_slash (rest : list ascii) (i : Z) (st : Path.Scan) :
  Path.matchedSlash st = false ->
  Path.scan ("/"%char :: rest) i st
  = Path.mkScan (Path.startDot st) (i + 1) (Path.scanEnd st) false
      (Path.preDotState st).
Proof. intros H. cbn. rewrite H. reflexivity. Qed.

Lemma forallb_rev {A} (f : A -> bool) (l : list A) :
  forallb f (rev l) = forallb f l.
Proof.
  induction l as [| a l IH]; [reflexivity |].
  cbn. rewrite forallb_app, IH. cbn. rewrite andb_true_r. apply andb_comm.
Qed.

Lemma length_app (a b : string) :
  String.length (a ++ b) = (String.length a + String.length b)%nat.
Proof. induction a as [| c a IH]; cbn; [reflexivity | now rewrite IH]. Qed.

Lemma len_app (a b : string) : Path.len (a ++ b) = Path.len a + Path.len b.
Proof. unfold Path.len. rewrite length_app. lia. Qed.

Lemma len_nonneg (a : string) : 0 <= Path.len a.
Proof. unfold Path.len. lia. Qed.

Lemma len_pos (a : string) : a <> "" -> 0 < Path.len a.
Proof. destruct a; [congruence |]. unfold Path.len. cbn. lia. Qed.

Lemma substring_mid (a b c : string) :
  substring (String.length a) (String.length b) (a ++ b ++ c) = b.
Proof.
  apply chars_inj. rewrite chars_substring, !chars_app.
  rewrite <- (chars_length a), skipn_length_app.
  rewrite <- (chars_length b). apply firstn_length_app.
Qed.

Lemma substring_prefix (a c : string) :
  substring 0 (String.length a) (a ++ c) = a.
Proof. apply (substring_mid "" a c). Qed.

Lemma slice_mid (a b c : string) (i j : Z) :
  i = Path.len a -> j = Path.len a + Path.len b ->
  Path.slice (a ++ b ++ c) i j = b.
Proof.
  intros -> ->. unfold Path.slice, Path.len.
  replace (Z.to_nat (Z.of_nat (String.length a))) with (String.length a)
    by lia.
  replace (Z.to_nat _) with (String.length b) by lia.
  apply substring_mid.
Qed.

Lemma slice_tail (a b : string) (i j : Z) :
  i = Path.len a -> j = Path.len a + Path.len b ->
  Path.slice (a ++ b) i j = b.
Proof.
  intros Hi Hj. rewrite <- (string_app_empty b) at 1.
  apply slice_mid; assumption.
Qed.

(** The scan over a base name [n.x] whose extension [x] has neither dot nor
    slash, followed by whatever stands to its left. *)
Lemma scan_base (n x : string) (tail : list ascii) (L : Z) :
  n <> "" -> slashFree n = true -> x <> "" -> plainString x = true ->
  Path.len (n ++ "." ++ x) <= L ->
  exists pd,
    pd <> 0 /\
    Path.scan (rev (chars (n ++ "." ++ x)) ++ tail) (L - 1) Path.scan0
    = Path.scan tail (L - 1 - Path.len (n ++ "." ++ x))
        (Path.mkScan (L - 1 - Path.len x) 0 L false pd).
Proof.
  intros Hn Hsn Hx Hpx HL.
  rewrite !chars_app, !rev_app_distr, <- !app_assoc.
  unfold plainString in Hpx. rewrite <- forallb_rev in Hpx.
  unfold slashFree in Hsn. rewrite <- forallb_rev in Hsn.
  assert (Hlx : Path.len x = Z.of_nat (List.length (rev (chars x))))
    by (rewrite length_rev, chars_length; reflexivity).
  assert (Hln : Path.len n = Z.of_nat (List.length (rev (chars n))))
    by (rewrite length_rev, chars_length; reflexivity).
  assert (Hnn : rev (chars n) <> []).
  { destruct n; [congruence |]. cbn. intros H.
    apply app_eq_nil in H. destruct H; discriminate. }
  rewrite !len_app, Hlx, Hln in *.
  change (Path.len ".") with 1 in *.
  destruct (rev (chars x)) as [| c l] eqn:Hrx.
  { destruct x; [congruence |]. cbn in Hrx.
    apply app_eq_nil in Hrx. destruct Hrx; discriminate. }
  cbn in Hpx. apply andb_prop in Hpx. destruct Hpx as [Hc Hl].
  cbn [List.length] in HL.
  cbn [app]. rewrite scan_first by assumption.
  rewrite scan_plain by (assumption || lia).
  cbn [rev chars app]. rewrite scan_dot by lia.
  destruct (scan_name (rev (chars n)) tail
              (L - 1 - 1 - Z.of_nat (List.length l) - 1)
              (L - 1 - 1 - Z.of_nat (List.length l)) (L - 1 + 1) 0 Hsn
              ltac:(lia) ltac:(lia))
    as [pd [Hscan Hpd]].
  exists pd. split; [auto |].
  replace (L - 1 + 1) with L in * by lia.
  rewrite Hscan. cbn [List.length Path.len String.length].
  f_equal; [lia |]. f_equal. lia.
Qed.

(** [parse], once the scan has found an extension that is not the whole
    base name. *)
Lemma parse_of_scan (path : string) (sd sp e pd : Z) :
  path <> "" ->
  Path.scan
    (rev (chars (Path.slice path (if Path.isAbsolute path then 1 else 0)
                   (Path.len path))))
    (Path.len path - 1) Path.scan0
  = Path.mkScan sd sp e false pd ->
  e <> -1 -> sd <> -1 -> pd <> 0 -> sd <> e - 1 ->
  Path.name (Path.parse path)
  = Path.slice path (if (sp =? 0) && Path.isAbsolute path then 1 else sp) sd
  /\
  Path.dir (Path.parse path)
  = if sp >? 0 then Path.slice path 0 (sp - 1)
    else if Path.isAbsolute path then "/" else "".
Proof.
  intros Hp Hscan He Hsd Hpd Hext.
  unfold Path.parse.
  rewrite (proj2 (Z.eqb_neq (Path.len path) 0))
    by (pose proof (len_pos path Hp); lia).
  cbv zeta. rewrite Hscan.
  cbn [Path.startDot Path.startPart Path.scanEnd Path.preDotState].
  rewrite (proj2 (Z.eqb_neq e (-1)) He), (proj2 (Z.eqb_neq sd (-1)) Hsd),
    (proj2 (Z.eqb_neq pd 0) Hpd), (proj2 (Z.eqb_neq sd (e - 1)) Hext).
  rewrite andb_false_r. cbn [negb orb andb].
  split; reflexivity.
Qed.

Lemma slice_from (s : string) (a : Z) :
  0 <= a ->
  chars (Path.slice s a (Path.len s)) = skipn (Z.to_nat a) (chars s).
Proof.
  intros Ha. unfold Path.slice. rewrite chars_substring.
  apply firstn_all2. rewrite length_skipn, chars_length. unfold Path.len. lia.
Qed.

Lemma isAbsolute_app (a b : string) :
  a <> "" -> Path.isAbsolute (a ++ b) = Path.isAbsolute a.
Proof. destruct a; [congruence | reflexivity]. Qed.

Lemma slashFree_isAbsolute (a : string) :
  slashFree a = true -> Path.isAbsolute a = false.
Proof.
  destruct a as [| c a]; [reflexivity |]. unfold slashFree. cbn.
  intros H. apply andb_prop in H. now apply negb_true_iff.
Qed.

Section Base.

Variables n x : string.
Hypothesis n_nonempty : n <> "".
Hypothesis n_slashFree : slashFree n = true.
Hypothesis x_nonempty : x <> "".
Hypothesis x_plain : plainString x = true.

Local Abbreviation base := (n ++ "." ++ x).

Lemma base_nonempty : base <> "".
Proof. destruct n; [congruence | discriminate]. Qed.

Lemma base_relative : Path.isAbsolute base = false.
Proof.
  rewrite isAbsolute_app by assumption.
  apply slashFree_isAbsolute, n_slashFree.
Qed.

(** A bare file name [n.x]. *)
Lemma parse_file :
  Path.name (Path.parse base) = n /\ Path.dir (Path.parse base) = "".
Proof.
  pose proof base_relative as Habs.
  destruct (scan_base n x [] (Path.len base) n_nonempty n_slashFree
              x_nonempty x_plain ltac:(lia))
    as [pd [Hpd Hscan]].
  rewrite app_nil_r in Hscan. cbn [Path.scan] in Hscan.
  destruct (parse_of_scan base (Path.len base - 1 - Path.len x) 0
              (Path.len base) pd base_nonempty) as [Hname Hdir].
  - rewrite Habs, slice_from by lia. exact Hscan.
  - pose proof (len_pos _ base_nonempty). lia.
  - rewrite !len_app. change (Path.len ".") with 1.
    pose proof (len_pos _ n_nonempty). pose proof (len_nonneg x). lia.
  - exact Hpd.
  - pose proof (len_pos _ x_nonempty). lia.
  - rewrite Hname, Hdir, Habs. cbn [Z.eqb Z.gtb Z.compare andb].
    split; [| reflexivity].
    apply (slice_mid "" n ("." ++ x)); [reflexivity |].
    rewrite !len_app. change (Path.len ".") with 1.
    change (Path.len "") with 0. lia.
Qed.

(** A file in the root directory: [/n.x]. *)
Lemma parse_root :
  Path.name (Path.parse ("/" ++ base)) = n /\
  Path.dir (Path.parse ("/" ++ base)) = "/".
Proof.
  destruct (scan_base n x [] (Path.len ("/" ++ base)) n_nonempty n_slashFree
              x_nonempty x_plain
              ltac:(rewrite (len_app "/"); change (Path.len "/") with 1;
                    lia))
    as [pd [Hpd Hscan]].
  rewrite app_nil_r in Hscan. cbn [Path.scan] in Hscan.
  destruct (parse_of_scan ("/" ++ base)
              (Path.len ("/" ++ base) - 1 - Path.len x) 0
              (Path.len ("/" ++ base)) pd ltac:(discriminate))
    as [Hname Hdir].
  - change (Path.isAbsolute ("/" ++ base)) with true.
    rewrite slice_from by lia. exact Hscan.
  - rewrite len_app. pose proof (len_pos _ base_nonempty).
    change (Path.len "/") with 1. lia.
  - rewrite !len_app. change (Path.len ".") with 1.
    change (Path.len "/") with 1.
    pose proof (len_pos _ n_nonempty). pose proof (len_nonneg x). lia.
  - exact Hpd.
  - pose proof (len_pos _ x_nonempty). lia.
  - rewrite Hname, Hdir. cbn [Z.eqb Z.gtb Z.compare andb].
    change (Path.isAbsolute ("/" ++ base)) with true.
    split; [| reflexivity].
    apply (slice_mid "/" n ("." ++ x)); [reflexivity |].
    rewrite !len_app. change (Path.len ".") with 1.
    change (Path.len "/") with 1. lia.
Qed.

(** A file in a directory: [D/n.x], for any non-empty [D]. *)
Lemma parse_in_dir (D : string) :
  D <> "" ->
  Path.name (Path.parse (D ++ "/" ++ base)) = n /\
  Path.dir (Path.parse (D ++ "/" ++ base)) = D.
Proof.
  intros HD.
  set (path := D ++ "/" ++ base).
  set (start := if Path.isAbsolute path then 1 else 0).
  assert (Hstart : 0 <= start <= 1) by (subst start; destruct Path.isAbsolute; lia).
  assert (HlenD : 0 < Path.len D) by (apply len_pos, HD).
  assert (HlenB : 0 < Path.len base) by (apply len_pos, base_nonempty).
  assert (Hlen : Path.len path = Path.len D + 1 + Path.len base).
  { subst path. rewrite !len_app. change (Path.len "/") with 1. lia. }
  assert (Hchars : rev (chars (Path.slice path start (Path.len path)))
                   = (rev (chars base)
                      ++ "/"%char :: rev (skipn (Z.to_nat start) (chars D)))%list).
  { rewrite slice_from by lia. subst path. rewrite !chars_app.
    rewrite skipn_app.
    replace (Z.to_nat start - List.length (chars D))%nat with 0%nat
      by (rewrite chars_length; unfold Path.len in HlenD; lia).
    cbn [skipn]. rewrite !rev_app_distr. cbn [chars rev app].
    rewrite <- app_assoc. reflexivity. }
  destruct (scan_base n x
              ("/"%char :: rev (skipn (Z.to_nat start) (chars D)))
              (Path.len path) n_nonempty n_slashFree x_nonempty x_plain
              ltac:(lia))
    as [pd [Hpd Hscan]].
  rewrite scan_slash in Hscan by reflexivity.
  cbn [Path.startDot Path.scanEnd Path.preDotState] in Hscan.
  destruct (parse_of_scan path (Path.len path - 1 - Path.len x)
              (Path.len path - 1 - Path.len base + 1)
              (Path.len path) pd ltac:(subst path; destruct D; discriminate))
    as [Hname Hdir].
  - fold start. rewrite Hchars. exact Hscan.
  - lia.
  - rewrite !len_app in *. change (Path.len ".") with 1 in *.
    pose proof (len_pos _ n_nonempty). pose proof (len_nonneg x). lia.
  - exact Hpd.
  - pose proof (len_pos _ x_nonempty). lia.
  - rewrite Hname, Hdir.
    replace (Path.len path - 1 - Path.len base + 1) with (Path.len D + 1)
      by lia.
    replace (Path.len D + 1 =? 0) with false by (symmetry; apply Z.eqb_neq; lia).
    replace (Path.len D + 1 >? 0) with true by (symmetry; apply Z.gtb_lt; lia).
    cbn [andb]. subst path. split.
    + replace (D ++ "/" ++ n ++ "." ++ x) with ((D ++ "/") ++ n ++ "." ++ x)
        by (rewrite string_app_assoc; reflexivity).
      apply slice_mid; rewrite !len_app; change (Path.len "/") with 1;
        [lia |]. rewrite !len_app in Hlen.
      change (Path.len ".") with 1 in *. lia.
    + apply (slice_mid "" D ("/" ++ base)); [reflexivity | cbn; lia].
Qed.

End Base.

Lemma slashFree_app (a b : string) :
  slashFree (a ++ b) = slashFree a && slashFree b.
Proof. unfold slashFree. rewrite chars_app. apply forallb_app. Qed.

Lemma segments_slashFree (s cur : string) :
  slashFree s = true -> Path.segments s cur = [cur ++ s].
Proof.
  revert cur. induction s as [| c s IH]; intros cur H.
  - cbn. now rewrite string_app_empty.
  - unfold slashFree in H. cbn in H. apply andb_prop in H.
    destruct H as [Hc Hs]. apply negb_true_iff in Hc.
    cbn. rewrite Hc, IH by exact Hs. rewrite string_app_assoc. reflexivity.
Qed.

Lemma segments_app (a r cur : string) :
  slashFree a = true ->
  Path.segments (a ++ "/" ++ r) cur = (cur ++ a) :: Path.segments r "".
Proof.
  revert cur. induction a as [| c a IH]; intros cur H.
  - cbn. now rewrite string_app_empty.
  - unfold slashFree in H. cbn in H. apply andb_prop in H.
    destruct H as [Hc Hs]. apply negb_true_iff in Hc.
    cbn. rewrite Hc, IH by exact Hs. rewrite string_app_assoc. reflexivity.
Qed.

Lemma ordinary_slashFree (s : string) : ordinary s = true -> slashFree s = true.
Proof. unfold ordinary. intros H. now apply andb_prop in H. Qed.

Lemma ordinary_nonempty (s : string) : ordinary s = true -> s <> "".
Proof.
  unfold ordinary. intros H Hs. subst s. discriminate.
Qed.

Lemma segments_concat (segs : list string) :
  segs <> [] -> forallb ordinary segs = true ->
  Path.segments (String.concat "/" segs) "" = segs.
Proof.
  induction segs as [| s segs IH]; [congruence |].
  intros _ H. cbn in H. apply andb_prop in H. destruct H as [Hs Hsegs].
  apply ordinary_slashFree in Hs.
  destruct segs as [| s' segs].
  - cbn. apply segments_slashFree, Hs.
  - change (String.concat "/" (s :: s' :: segs))
      with (s ++ "/" ++ String.concat "/" (s' :: segs)).
    rewrite segments_app by exact Hs. rewrite IH by (discriminate || assumption).
    reflexivity.
Qed.

Lemma normalizeSegments_ordinary (b : bool) (l res : list string) :
  forallb ordinary l = true ->
  Path.normalizeSegments b l res = (rev res ++ l)%list.
Proof.
  revert res. induction l as [| s l IH]; intros res H.
  - cbn. now rewrite app_nil_r.
  - cbn in H. apply andb_prop in H. destruct H as [Hs Hl].
    unfold ordinary in Hs.
    apply andb_prop in Hs. destruct Hs as [Hs _].
    apply andb_prop in Hs. destruct Hs as [Hs H2].
    apply andb_prop in Hs. destruct Hs as [H0 H1].
    apply negb_true_iff in H0, H1, H2.
    cbn [Path.normalizeSegments]. rewrite H0, H1, H2. cbn [orb].
    rewrite IH by exact Hl. cbn [rev]. rewrite <- app_assoc. reflexivity.
Qed.

Lemma concat_snoc (segs : list string) (s : string) :
  segs <> [] ->
  String.concat "/" (segs ++ [s]) = String.concat "/" segs ++ "/" ++ s.
Proof.
  induction segs as [| a segs IH]; [congruence |]. intros _.
  destruct segs as [| a' segs]; [reflexivity |].
  change (String.concat "/" ((a :: a' :: segs) ++ [s]))
    with (a ++ "/" ++ String.concat "/" ((a' :: segs) ++ [s])).
  rewrite IH by discriminate.
  change (String.concat "/" (a :: a' :: segs))
    with (a ++ "/" ++ String.concat "/" (a' :: segs)).
  rewrite !string_app_assoc. reflexivity.
Qed.

(** A path that ends with a segment without a slash does not end with a
    slash. *)
Lemma endsWith_slash (a s : string) :
  s <> "" -> slashFree s = true -> JS.endsWith (a ++ s) "/" = false.
Proof.
  intros Hs Hfree. unfold JS.endsWith.
  destruct (String.eqb_spec
              (substring (String.length (a ++ s) - String.length "/")
                 (String.length "/") (a ++ s)) "/") as [H |];
    [| apply andb_false_r].
  exfalso.
  apply (f_equal list_ascii_of_string) in H.
  rewrite chars_substring, chars_app, length_app in H.
  cbn [String.length chars] in H.
  assert (Hlen : (0 < String.length s)%nat) by (destruct s; [congruence | cbn; lia]).
  rewrite skipn_app, chars_length in H.
  rewrite skipn_all2 in H by (rewrite chars_length; lia).
  cbn [app] in H.
  assert (Hin : In "/"%char (chars s)).
  { rewrite <- (firstn_skipn
                  (String.length a + String.length s - 1 - String.length a)
                  (chars s)).
    apply in_or_app. right.
    destruct (skipn _ (chars s)) as [| c l]; [discriminate |].
    cbn in H. inversion H. left. reflexivity. }
  unfold slashFree in Hfree. rewrite forallb_forall in Hfree.
  specialize (Hfree _ Hin). discriminate.
Qed.

Lemma normalizeSegments_empties (b : bool) (k : nat) (l res : list string) :
  Path.normalizeSegments b (repeat "" k ++ l) res
  = Path.normalizeSegments b l res.
Proof. induction k as [| k IH]; [reflexivity | exact IH]. Qed.

Lemma concat_nonempty (segs : list string) :
  segs <> [] -> forallb ordinary segs = true -> String.concat "/" segs <> "".
Proof.
  destruct segs as [| s segs]; [congruence |]. intros _ H.
  cbn in H. apply andb_prop in H. destruct H as [Hs _].
  apply ordinary_nonempty in Hs.
  destruct segs; cbn; [exact Hs |]. destruct s; [congruence | discriminate].
Qed.

(** [normalize] on a path whose segments, after some empty ones, are all
    ordinary, and which does not end with a slash. *)
Lemma normalize_ordinary (path : string) (k : nat) (segs : list string) :
  path <> "" -> JS.endsWith path "/" = false ->
  Path.segments path "" = (repeat "" k ++ segs)%list ->
  segs <> [] -> forallb ordinary segs = true ->
  Path.normalize path
  = (if Path.isAbsolute path then "/" else "") ++ String.concat "/" segs.
Proof.
  intros Hp Hend Hsegs Hne Hord.
  unfold Path.normalize, Path.normalizeString.
  rewrite (proj2 (Z.eqb_neq (Path.len path) 0))
    by (pose proof (len_pos path Hp); lia).
  rewrite Hend, Hsegs, normalizeSegments_empties,
    normalizeSegments_ordinary by exact Hord.
  cbn [rev app].
  rewrite (proj2 (Z.eqb_neq (Path.len (String.concat "/" segs)) 0))
    by (pose proof (len_pos _ (concat_nonempty segs Hne Hord)); lia).
  destruct (Path.isAbsolute path); reflexivity.
Qed.

Lemma length_neq (a b : string) :
  String.length a <> String.length b -> a <> b.
Proof. intros H ->. apply H. reflexivity. Qed.

(** The file name that [defaultOutput] builds is an ordinary segment. *)
Lemma compressed_ordinary (n : string) :
  slashFree n = true -> ordinary (n ++ "-compressed.pdf") = true.
Proof.
  intros Hn. unfold ordinary.
  rewrite slashFree_app, Hn.
  rewrite (proj2 (String.eqb_neq _ ""))
    by (apply length_neq; rewrite length_app; cbn; lia).
  rewrite (proj2 (String.eqb_neq _ "."))
    by (apply length_neq; rewrite length_app; cbn; lia).
  rewrite (proj2 (String.eqb_neq _ ".."))
    by (apply length_neq; rewrite length_app; cbn; lia).
  reflexivity.
Qed.

Lemma forallb_snoc {A} (f : A -> bool) (l : list A) (a : A) :
  forallb f l = true -> f a = true -> forallb f (l ++ [a]) = true.
Proof. intros Hl Ha. rewrite forallb_app, Hl. cbn. now rewrite Ha. Qed.

(** The default output path, for every input path of the shape
    [dir1/.../dirk/n.x], relative or absolute, with [k >= 0] ordinary
    directory names, a file name [n] that is not empty and an extension [x]
    that is not empty and has no dot: the same directories, then
    [n-compressed.pdf]. *)
Theorem defaultOutput_shape (abs : bool) (dirs : list string) (n x : string) :
  forallb ordinary dirs = true ->
  n <> "" -> slashFree n = true ->
  x <> "" -> plainString x = true ->
  defaultOutput ((if abs then "/" else "")
                 ++ String.concat "/" (dirs ++ [n ++ "." ++ x]))
  = (if abs then "/" else "")
    ++ String.concat "/" (dirs ++ [n ++ "-compressed.pdf"]).
Proof.
  intros Hdirs Hn Hsn Hx Hpx.
  pose proof (compressed_ordinary n Hsn) as Hf.
  assert (Hfne : n ++ "-compressed.pdf" <> "")
    by (apply ordinary_nonempty, Hf).
  unfold defaultOutput.
  destruct dirs as [| d dirs].
  - (* no directory *)
    destruct abs.
    + change (Path.join (Path.dir (Path.parse ("/" ++ n ++ "." ++ x)))
                (Path.name (Path.parse ("/" ++ n ++ "." ++ x))
                 ++ "-compressed.pdf")
              = "/" ++ n ++ "-compressed.pdf").
      destruct (parse_root n x Hn Hsn Hx Hpx) as [-> ->].
      unfold Path.join.
      rewrite (proj2 (Z.eqb_neq (Path.len (n ++ "-compressed.pdf")) 0))
        by (pose proof (len_pos _ Hfne); lia).
      cbn [Path.len String.length Z.of_nat Z.eqb Pos.of_succ_nat].
      rewrite (normalize_ordinary _ 2 [n ++ "-compressed.pdf"]);
        try reflexivity; try discriminate.
      * apply (endsWith_slash "//"); [exact Hfne |].
        apply ordinary_slashFree, Hf.
      * cbn. rewrite segments_slashFree by (apply ordinary_slashFree, Hf).
        reflexivity.
      * cbn. now rewrite Hf.
    + change (Path.join (Path.dir (Path.parse (n ++ "." ++ x)))
                (Path.name (Path.parse (n ++ "." ++ x)) ++ "-compressed.pdf")
              = n ++ "-compressed.pdf").
      destruct (parse_file n x Hn Hsn Hx Hpx) as [-> ->].
      unfold Path.join.
      rewrite (proj2 (Z.eqb_neq (Path.len (n ++ "-compressed.pdf")) 0))
        by (pose proof (len_pos _ Hfne); lia).
      cbn [Path.len String.length Z.of_nat Z.eqb].
      rewrite (normalize_ordinary _ 0 [n ++ "-compressed.pdf"]);
        try assumption; try discriminate.
      * rewrite slashFree_isAbsolute
          by (apply ordinary_slashFree, Hf). reflexivity.
      * apply (endsWith_slash ""); [exact Hfne |].
        apply ordinary_slashFree, Hf.
      * apply segments_slashFree, ordinary_slashFree, Hf.
      * cbn. now rewrite Hf.
  - (* at least one directory *)
    set (pre := if abs then "/" else "").
    set (D := pre ++ String.concat "/" (d :: dirs)).
    assert (HD : D <> "").
    { subst D pre. destruct abs; [discriminate |].
      apply (concat_nonempty (d :: dirs)); [discriminate | exact Hdirs]. }
    rewrite !concat_snoc by discriminate.
    replace (pre ++ String.concat "/" (d :: dirs) ++ "/" ++ n ++ "." ++ x)
      with (D ++ "/" ++ n ++ "." ++ x)
      by (subst D; rewrite string_app_assoc; reflexivity).
    destruct (parse_in_dir n x Hn Hsn Hx Hpx D HD) as [-> ->].
    unfold Path.join.
    rewrite (proj2 (Z.eqb_neq (Path.len D) 0))
      by (pose proof (len_pos _ HD); lia).
    rewrite (proj2 (Z.eqb_neq (Path.len (n ++ "-compressed.pdf")) 0))
      by (pose proof (len_pos _ Hfne); lia).
    assert (Hall : forallb ordinary ((d :: dirs) ++ [n ++ "-compressed.pdf"])
                   = true) by (apply forallb_snoc; assumption).
    assert (Hpath : D ++ "/" ++ n ++ "-compressed.pdf"
                    = pre ++ String.concat "/"
                               ((d :: dirs) ++ [n ++ "-compressed.pdf"])).
    { subst D. rewrite concat_snoc by discriminate.
      rewrite string_app_assoc. reflexivity. }
    rewrite (normalize_ordinary _ (if abs then 1 else 0)
               ((d :: dirs) ++ [n ++ "-compressed.pdf"])).
    + rewrite isAbsolute_app by exact HD.
      subst D pre. rewrite concat_snoc by discriminate.
      destruct abs.
      * cbn [Path.isAbsolute append Path.isSlash Ascii.eqb Bool.eqb].
        reflexivity.
      * cbn [append].
        assert (Hrel : Path.isAbsolute (String.concat "/" (d :: dirs)) = false).
        { cbn in Hdirs. apply andb_prop in Hdirs. destruct Hdirs as [Hd _].
          destruct dirs; cbn [String.concat];
            [| rewrite isAbsolute_app by (apply ordinary_nonempty, Hd)];
            apply slashFree_isAbsolute, ordinary_slashFree, Hd. }
        rewrite Hrel. reflexivity.
    + destruct D; [congruence | discriminate].
    + replace (D ++ "/" ++ n ++ "-compressed.pdf")
        with ((D ++ "/") ++ n ++ "-compressed.pdf")
        by (rewrite string_app_assoc; reflexivity).
      apply endsWith_slash; [exact Hfne | apply ordinary_slashFree, Hf].
    + rewrite Hpath. subst pre. destruct abs.
      * cbn [append Path.segments Path.isSlash Ascii.eqb Bool.eqb].
        change (Path.segments ?s "") with (Path.segments s "").
        cbn [repeat app]. f_equal.
        apply segments_concat; [discriminate | exact Hall].
      * cbn [append repeat app].
        apply segments_concat; [discriminate | exact Hall].
    + discriminate.
    + exact Hall.
Qed.

(** C5.  When validation succeeds and no output path was given, the output
    path is [path.join] of the input's directory and
    [<name>-compressed.pdf], where [<name>] is the input's base name without
    its extension, and the one notice printed names this path.  For an input
    [dir1/.../dirk/n.x], relative or absolute, with or without directories
    and whatever the case of the extension, that path is
    [dir1/.../dirk/n-compressed.pdf]. *)
Theorem C5_default_output (fs : Fs.FileSystem) (raw : Raw.Options) w v :
  outputAbsent raw = true ->
  validateOptions fs raw = (w, inr v) ->
  Validated.output v
  = Path.join (Path.dir (Path.parse (Raw.input raw)))
      (Path.name (Path.parse (Raw.input raw)) ++ "-compressed.pdf")
  /\
  w = [Text ("No output specified, using: " ++ Validated.output v)]
  /\
  (forall (abs : bool) (dirs : list string) (n x : string),
      forallb ordinary dirs = true ->
      n <> "" -> slashFree n = true ->
      x <> "" -> plainString x = true ->
      Raw.input raw
      = (if abs then "/" else "")
        ++ String.concat "/" (dirs ++ [n ++ "." ++ x]) ->
      Validated.output v
      = (if abs then "/" else "")
        ++ String.concat "/" (dirs ++ [n ++ "-compressed.pdf"])).
Proof.
  intros Habsent Hv.
  destruct (validateOptions_inr _ _ _ _ Hv)
    as (_ & _ & _ & _ & _ & Hout & _ & Hw).
  unfold resolvedOutput in Hout. unfold outputNotice in Hw.
  rewrite Habsent in Hout, Hw. rewrite Hout, Hw.
  split; [reflexivity |]. split; [reflexivity |].
  intros abs dirs n x Hdirs Hn Hsn Hx Hpx ->.
  apply defaultOutput_shape; assumption.
Qed.

(** An upper-case extension in a directory, and a bare file name. *)
Lemma C5_default_output_witness :
  exists v,
    validateOptions fsBefore (request "3")
    = ([Text "No output specified, using: docs/Report-compressed.pdf"],
       inr v)
    /\ Validated.output v = "docs/Report-compressed.pdf"
    /\ defaultOutput "sample.pdf" = "sample-compressed.pdf".
Proof.
  destruct (validateOptions fsBefore (request "3")) as [w [e | v]] eqn:Hv;
    [vm_compute in Hv; discriminate |].
  destruct (C5_default_output fsBefore (request "3") w v eq_refl Hv)
    as (_ & Hw & Hshape).
  assert (Hout : Validated.output v = "docs/Report-compressed.pdf").
  { apply (Hshape false ["docs"] "Report" "PDF"); try reflexivity;
      discriminate. }
  exists v. rewrite Hw, Hout. split; [reflexivity |].
  split; [reflexivity |].
  apply (defaultOutput_shape false [] "sample" "pdf"); try reflexivity;
    discriminate.
Defined.

(** ** The running process *)

Lemma runEvents_snoc (r : Run) (evs : list Event) (ev : Event) :
  runEvents r (evs ++ [ev]) = handle (runEvents r evs) ev.
Proof. unfold runEvents. rewrite fold_left_app. reflexivity. Qed.

Lemma runEvents_cons (r : Run) (ev : Event) (evs : list Event) :
  runEvents r (ev :: evs) = runEvents (handle r ev) evs.
Proof. reflexivity. Qed.

(** What an event that is not terminal leaves alone. *)
Lemma handle_nonterminal (r : Run) (ev : Event) :
  isTerminal ev = false ->
  let r' := handle r ev in
  promise r' = promise r /\ options r' = options r /\
  timerActive r' = timerActive r /\ inputSizeBytes r' = inputSizeBytes r /\
  stderrData r' = (stderrData r ++ stderrOf [ev])%string /\
  successReported r' = successReported r /\
  (barValue r <= 99 -> barValue r' <= 99).
Proof.
  destruct ev as [| data | data | code fs | c m]; try discriminate;
    intros _; cbn.
  - destruct (timerActive r) eqn:Ht; cbn; rewrite ?string_app_empty, ?Ht;
      repeat split; lia.
  - unfold onStdoutData, successReported, log. cbn.
    destruct (Validated.verbose (options r)); cbn;
      rewrite ?existsb_app; cbn;
      rewrite ?orb_false_r, ?string_app_empty; repeat split; lia.
  - unfold onStderrData, successReported, log. cbn.
    destruct (Validated.verbose (options r)); cbn;
      rewrite ?existsb_app; cbn;
      rewrite ?orb_false_r, ?string_app_empty; repeat split; lia.
Qed.

Lemma runEvents_nonterminal (evs : list Event) (r : Run) :
  nonterminal evs ->
  let r' := runEvents r evs in
  promise r' = promise r /\ options r' = options r /\
  timerActive r' = timerActive r /\ inputSizeBytes r' = inputSizeBytes r /\
  stderrData r' = (stderrData r ++ stderrOf evs)%string /\
  successReported r' = successReported r /\
  (barValue r <= 99 -> barValue r' <= 99).
Proof.
  unfold nonterminal.
  revert r. induction evs as [| ev evs IH]; intros r H; cbn in H.
  - cbn. rewrite string_app_empty. repeat split; auto.
  - apply andb_prop in H. destruct H as [Hev Hevs].
    apply negb_true_iff in Hev.
    destruct (handle_nonterminal r ev Hev)
      as (Hp & Ho & Ht & Hi & Hs & Hr & Hb).
    destruct (IH (handle r ev) Hevs) as (Hp' & Ho' & Ht' & Hi' & Hs' & Hr' & Hb').
    rewrite runEvents_cons. cbv zeta.
    rewrite Hp', Ho', Ht', Hi', Hs', Hr', Hp, Ho, Ht, Hi, Hs, Hr.
    repeat split; auto.
    rewrite string_app_assoc. f_equal.
    destruct ev; try discriminate; cbn; rewrite ?string_app_empty;
      reflexivity.
Qed.

(** No event changes the validated options or the recorded input size. *)
Lemma handle_options (r : Run) (ev : Event) :
  options (handle r ev) = options r /\
  inputSizeBytes (handle r ev) = inputSizeBytes r.
Proof.
  destruct ev as [| data | data | code fs | c m]; cbn.
  - destruct (timerActive r); split; reflexivity.
  - unfold onStdoutData. cbn. destruct (Validated.verbose (options r));
      split; reflexivity.
  - unfold onStderrData. cbn. destruct (Validated.verbose (options r));
      split; reflexivity.
  - unfold onClose, settle.
    destruct code as [[| p | p] |]; cbn;
      try destruct (Fs.existsSync fs (Validated.output (options r))); cbn;
      destruct (promise r); split; reflexivity.
  - unfold onError, settle. destruct (String.eqb c "ENOENT"); cbn;
      destruct (promise r); split; reflexivity.
Qed.

Lemma runEvents_options (evs : list Event) (r : Run) :
  options (runEvents r evs) = options r /\
  inputSizeBytes (runEvents r evs) = inputSizeBytes r.
Proof.
  revert r. induction evs as [| ev evs IH]; intros r; [split; reflexivity |].
  rewrite runEvents_cons.
  destruct (IH (handle r ev)) as [Ho Hi].
  destruct (handle_options r ev) as [Ho' Hi'].
  split; congruence.
Qed.

(** Case analysis on the promise that [settle] inspects. *)
Ltac settle_cases r :=
  unfold settle; cbn;
  let Hp := fresh "Hp" in
  destruct (promise r) eqn:Hp; cbn; rewrite ?Hp.

(** Success is new only at an exit with status 0 that finds the output
    file. *)
Lemma handle_success (r : Run) (ev : Event) :
  promise (handle r ev) = Resolved \/ successReported (handle r ev) = true ->
  (promise r = Resolved \/ successReported r = true) \/
  exists fs, ev = Close (Some 0) fs /\
             Fs.existsSync fs (Validated.output (options r)) = true.
Proof.
  destruct (isTerminal ev) eqn:Hev.
  - destruct ev as [| data | data | code fs | c m]; try discriminate; cbn.
    + unfold onClose, successReported.
      destruct code as [[| p | p] |]; cbn;
        [ destruct (Fs.existsSync fs (Validated.output (options r))) eqn:Hex;
          [ intros _; right; exists fs; split; [reflexivity | exact Hex] |]
        | | | ];
        settle_cases r; intros [H | H];
        solve [discriminate H | left; left; reflexivity
               | left; right; exact H].
    + unfold onError, successReported.
      destruct (String.eqb c "ENOENT"); settle_cases r; intros [H | H];
        solve [discriminate H | left; left; reflexivity
               | left; right; exact H].
  - destruct (handle_nonterminal r ev Hev) as (Hp & _ & _ & _ & _ & Hs & _).
    rewrite Hp, Hs. intros H. left. exact H.
Qed.






Section Spawned.

(** A run that [compressPdf] has started. *)
Variables (fs : Fs.FileSystem) (raw : Raw.Options).
Variables (w : list LogLine) (run0 : Run).
Hypothesis started : compressPdf fs raw = (w, inr run0).

Lemma run0_initial :
  barValue run0 = 0 /\ timerActive run0 = true /\ stderrData run0 = "" /\
  promise run0 = Pending /\ successReported run0 = false.
Proof.
  destruct (compressPdf_inr _ _ _ _ started)
    as (w' & v & _ & _ & _ & _ & _ & Hb & _ & Ht & _ & He & Hp & Hc).
  unfold successReported. rewrite Hc. auto.
Qed.

Lemma success_needs_output (evs : list Event) :
  promise (runEvents run0 evs) = Resolved
  \/ successReported (runEvents run0 evs) = true ->
  exists fs', In (Close (Some 0) fs') evs /\
              Fs.existsSync fs' (Validated.output (options run0)) = true.
Proof.
  induction evs as [| ev evs IH] using rev_ind.
  - destruct run0_initial as (_ & _ & _ & Hp & Hs). cbn.
    rewrite Hp, Hs. intros [H | H]; discriminate.
  - rewrite runEvents_snoc. intros H.
    destruct (handle_success _ _ H) as [Hprev | [fs' [Hev Hex]]].
    + destruct (IH Hprev) as [fs' [Hin Hex]].
      exists fs'. split; [apply in_or_app; left; exact Hin | exact Hex].
    + exists fs'. rewrite (proj1 (runEvents_options evs run0)) in Hex.
      split; [apply in_or_app; right; left; auto | exact Hex].
Qed.

(** C6.  When the first terminal event is the exit with status 0 and the
    output file does not exist, the promise is rejected with
    [OutputMissing] and no success report is printed; and whatever the
    events, the promise is resolved or a success report printed only if
    an exit with status 0 was handled while the output file existed. *)
Theorem C6_output_missing :
  (forall evs fs',
      nonterminal evs ->
      Fs.existsSync fs' (Validated.output (options run0)) = false ->
      promise (runEvents run0 (evs ++ [Close (Some 0) fs']))
      = Rejected OutputMissing /\
      successReported (runEvents run0 (evs ++ [Close (Some 0) fs']))
      = false)
  /\
  (forall evs,
      promise (runEvents run0 evs) = Resolved
      \/ successReported (runEvents run0 evs) = true ->
      exists fs',
        In (Close (Some 0) fs') evs /\
        Fs.existsSync fs' (Validated.output (options run0)) = true).
Proof.
  split; [| exact success_needs_output].
  intros evs fs' Hn Hex.
  destruct run0_initial as (_ & _ & _ & Hp0 & Hs0).
  destruct (runEvents_nonterminal evs run0 Hn)
    as (Hp & Ho & _ & _ & _ & Hs & _).
  rewrite runEvents_snoc. cbn. unfold onClose, successReported in *. cbn.
  rewrite Ho, Hex. unfold settle. cbn. rewrite Hp, Hp0. cbn.
  split; [reflexivity |]. rewrite Hs. exact Hs0.
Qed.



End Spawned.

(** The sample run at level 3, and its events: two ticks, some standard
    error, the exit. *)
Lemma C6_output_missing_witness :
  exists w r,
    compressPdf fsBefore (request "3") = (w, inr r) /\
    promise (runEvents r [Tick; StderrData "warning"; Tick;
                          Close (Some 0) fsBefore])
    = Rejected OutputMissing /\
    promise (runEvents r [Tick; StderrData "warning"; Tick;
                          Close (Some 0) fsAfter])
    = Resolved.
Proof.
  destruct (compressPdf fsBefore (request "3")) as [w [e | r]] eqn:H;
    [vm_compute in H; discriminate |].
  exists w, r. split; [reflexivity |]. split.
  - apply (proj1 (C6_output_missing _ _ _ _ H)
             [Tick; StderrData "warning"; Tick] fsBefore);
      [reflexivity |].
    vm_compute in H. inversion H. reflexivity.
  - vm_compute in H. inversion H. reflexivity.
Defined.



(** * Further properties of the code *)

(** ** The parameter lists *)

Lemma noDupNames_NoDup (names : list string) :
  noDupNames names = true -> NoDup names.
Proof.
  induction names as [| n rest IH]; intros H; [constructor |].
  cbn in H. apply andb_prop in H. destruct H as [Hn Hrest].
  constructor; [| apply IH, Hrest].
  intros Hin. apply negb_true_iff in Hn.
  assert (existsb (String.eqb n) rest = true).
  { apply existsb_exists. exists n. split; [exact Hin | apply String.eqb_refl]. }
  congruence.
Qed.

(** Outside 1..5 the [switch] takes its [default] branch. *)
Lemma getGsOptionsForLevel_default (L : Z) :
  ~ (1 <= L <= 5) -> getGsOptionsForLevel L = level3Options.
Proof.
  intros H. destruct L as [| p | p]; try reflexivity.
  destruct p as [[[|p|]|[|p|]|]|[[|p|]|[|p|]|]|]; try reflexivity; lia.
Qed.

Lemma getGsOptionsForLevel_cases (L : Z) :
  exists L', 1 <= L' <= 5 /\ getGsOptionsForLevel L = getGsOptionsForLevel L'
             /\ (1 <= L <= 5 -> L' = L) /\ (~ (1 <= L <= 5) -> L' = 3).
Proof.
  destruct (Z_le_dec 1 L) as [H1 |]; [destruct (Z_le_dec L 5) as [H5 |] |].
  - exists L. repeat split; try lia.
  - exists 3. rewrite getGsOptionsForLevel_default by lia.
    repeat split; try lia.
  - exists 3. rewrite getGsOptionsForLevel_default by lia.
    repeat split; try lia.
Qed.

(** X1.  For a level outside 1..5 [getGsOptionsForLevel] returns the list of
    level 3 (its [default] branch), and no process that [compressPdf] spawns
    has such a level: after validation the branch is never taken. *)
Theorem X1_fallback_is_level3 (L : Z) :
  (~ (1 <= L <= 5) -> getGsOptionsForLevel L = getGsOptionsForLevel 3) /\
  (forall fs raw w run,
      compressPdf fs raw = (w, inr run) ->
      forall L', ~ (1 <= L' <= 5) -> Validated.level (options run) <> L').
Proof.
  split.
  - intros H. rewrite getGsOptionsForLevel_default by exact H. reflexivity.
  - intros fs raw w run H L' HL' Heq.
    destruct (compressPdf_inr _ _ _ _ H) as (w' & v & Hv & _ & _ & Ho & _).
    destruct (validateOptions_inr _ _ _ _ Hv) as (_ & _ & _ & Hl & _).
    subst v. lia.
Qed.

Lemma getGsOptionsForLevel_names (L : Z) :
  NoDup (map optionName (getGsOptionsForLevel L)) /\
  ~ In "-sOutputFile" (map optionName (getGsOptionsForLevel L)).
Proof.
  destruct (getGsOptionsForLevel_cases L) as (L' & HL' & -> & _).
  each_level L' HL';
    (split; [apply noDupNames_NoDup; reflexivity |]);
    cbn; intuition discriminate.
Qed.

Lemma X1_fallback_is_level3_witness :
  getGsOptionsForLevel 0 = getGsOptionsForLevel 3 /\
  getGsOptionsForLevel 6 = getGsOptionsForLevel 3.
Proof.
  split.
  - apply (proj1 (X1_fallback_is_level3 0)). lia.
  - apply (proj1 (X1_fallback_is_level3 6)). lia.
Defined.

(** X2.  For every integer level the parameter list starts with the five
    base options, holds only [-d] and [-s] switches, names no switch twice
    and never names the output file; it sets both image filters to
    [/DCTEncode], and switches automatic filter choice off at level 1 and on
    at every other level. *)
Theorem X2_parameters_well_formed (L : Z) :
  let params := getGsOptionsForLevel L in
  firstn 5 params = baseOptions /\
  forallb isSwitch params = true /\
  NoDup (map optionName params) /\
  ~ In "-sOutputFile" (map optionName params) /\
  valuesOf "ColorImageFilter" params = ["/DCTEncode"] /\
  valuesOf "GrayImageFilter" params = ["/DCTEncode"] /\
  valuesOf "AutoFilterColorImages" params
  = [if L =? 1 then "false" else "true"] /\
  valuesOf "AutoFilterGrayImages" params
  = [if L =? 1 then "false" else "true"].
Proof.
  destruct (getGsOptionsForLevel_cases L) as (L' & HL' & Heq & Hin & Hout).
  cbv zeta. rewrite Heq.
  assert (HL1 : (L =? 1) = (L' =? 1)).
  { destruct (Z_le_dec 1 L) as [H1 |]; [destruct (Z_le_dec L 5) as [H5 |] |].
    - rewrite Hin by lia. reflexivity.
    - rewrite (Hout ltac:(lia)). apply Z.eqb_neq. lia.
    - rewrite (Hout ltac:(lia)). apply Z.eqb_neq. lia. }
  rewrite HL1. clear Heq Hin Hout HL1.
  each_level L' HL';
    (split; [reflexivity |]); (split; [reflexivity |]);
    (split; [apply getGsOptionsForLevel_names |]);
    (split; [apply getGsOptionsForLevel_names |]);
    repeat split; reflexivity.
Qed.

(** X3.  Between two levels from 1 to 5 the higher one has a strictly lower
    JPEG quality, strictly lower color and gray resolutions, and a mono
    resolution that is not higher. *)
Theorem X3_quality_decreases (L L' : Z) :
  1 <= L -> L < L' -> L' <= 5 ->
  exists q q' c c' g g' m m',
    directiveNumber "JPEGQ" (getGsOptionsForLevel L) = Some q /\
    directiveNumber "JPEGQ" (getGsOptionsForLevel L') = Some q' /\
    directiveNumber "ColorImageResolution" (getGsOptionsForLevel L) = Some c /\
    directiveNumber "ColorImageResolution" (getGsOptionsForLevel L') = Some c' /\
    directiveNumber "GrayImageResolution" (getGsOptionsForLevel L) = Some g /\
    directiveNumber "GrayImageResolution" (getGsOptionsForLevel L') = Some g' /\
    directiveNumber "MonoImageResolution" (getGsOptionsForLevel L) = Some m /\
    directiveNumber "MonoImageResolution" (getGsOptionsForLevel L') = Some m' /\
    q' < q /\ c' < c /\ g' < g /\ m' <= m.
Proof.
  intros H1 Hlt H5.
  assert (HL : 1 <= L <= 5) by lia. assert (HL' : 1 <= L' <= 5) by lia.
  each_level L HL; each_level L' HL'; try lia;
    do 8 eexists; repeat (split; [vm_compute; reflexivity |]);
    vm_compute; discriminate.
Qed.

Lemma X3_quality_decreases_witness :
  exists q q',
    directiveNumber "JPEGQ" (getGsOptionsForLevel 3) = Some q /\
    directiveNumber "JPEGQ" (getGsOptionsForLevel 4) = Some q' /\ q' < q.
Proof.
  destruct (X3_quality_decreases 3 4 ltac:(lia) ltac:(lia) ltac:(lia))
    as (q & q' & _ & _ & _ & _ & _ & _ & Hq & Hq' & _ & _ & _ & _ & _ & _
        & Hlt & _).
  exists q, q'. auto.
Defined.

(** X4.  An output path that is given and not empty is taken as it is,
    without a notice, and is what the output-file parameter names; and
    validation never looks at the output path: with any other output the
    same request fails with the same error or succeeds with the same input,
    level and verbosity. *)
Theorem X4_explicit_output (fs : Fs.FileSystem) (raw : Raw.Options) :
  (forall out w v,
      Raw.output raw = Some out -> out <> "" ->
      validateOptions fs raw = (w, inr v) ->
      Validated.output v = out /\ w = [] /\
      In ("-sOutputFile=" ++ out)
        (gsArguments (Validated.level v) (Validated.output v)
           (Validated.input v)))
  /\
  (forall output',
      match snd (validateOptions fs raw),
            snd (validateOptions fs (withOutput raw output')) with
      | inl e, inl e' => e = e'
      | inr v, inr v' =>
          Validated.input v = Validated.input v' /\
          Validated.level v = Validated.level v' /\
          Validated.verbose v = Validated.verbose v'
      | _, _ => False
      end).
Proof.
  split.
  - intros out w v Hout Hne Hv.
    destruct (validateOptions_inr _ _ _ _ Hv)
      as (_ & _ & _ & _ & _ & Ho & _ & Hw).
    unfold resolvedOutput in Ho. unfold outputNotice in Hw.
    unfold outputAbsent in Ho, Hw. rewrite Hout in Ho, Hw.
    rewrite (proj2 (String.eqb_neq out "") Hne) in Ho, Hw.
    rewrite Ho. split; [reflexivity |]. split; [exact Hw |].
    unfold gsArguments. apply in_or_app. right. left. reflexivity.
  - intros output'. rewrite !validateOptions_cases. cbn [withOutput Raw.input Raw.level Raw.verbose].
    destruct (Fs.existsSync fs (Raw.input raw)); cbn [negb snd];
      [| reflexivity].
    destruct (hasPdfSuffix (Raw.input raw)); cbn [negb snd]; [| reflexivity].
    destruct (levelInRange (JS.parseInt (Raw.level raw))); cbn [snd];
      [| reflexivity].
    cbn. auto.
Qed.

(** Nothing keeps the output from being the input file itself. *)
Lemma X4_explicit_output_witness :
  exists w v,
    validateOptions fsBefore
      (Raw.mkOptions "docs/Report.PDF" (Some "docs/Report.PDF") "2" false)
    = (w, inr v)
    /\ Validated.output v = Validated.input v /\ w = [].
Proof.
  destruct (validateOptions fsBefore
              (Raw.mkOptions "docs/Report.PDF" (Some "docs/Report.PDF") "2"
                 false)) as [w [e | v]] eqn:Hv;
    [vm_compute in Hv; discriminate |].
  destruct (proj1 (X4_explicit_output fsBefore
                     (Raw.mkOptions "docs/Report.PDF"
                        (Some "docs/Report.PDF") "2" false))
              "docs/Report.PDF" w v eq_refl ltac:(discriminate) Hv)
    as (Ho & Hw & _).
  exists w, v. split; [reflexivity |]. split; [| exact Hw].
  rewrite Ho. destruct (validateOptions_inr _ _ _ _ Hv) as (_ & _ & _ & _ & Hi & _).
  rewrite Hi. reflexivity.
Defined.



(** ** The suffix test *)

Lemma toLowerCase_app (a b : string) :
  JS.toLowerCase (a ++ b) = JS.toLowerCase a ++ JS.toLowerCase b.
Proof. induction a as [| c a IH]; cbn; [reflexivity | now rewrite IH]. Qed.

Lemma toLowerCase_split (s a b : string) :
  JS.toLowerCase s = a ++ b ->
  exists sa sb,
    s = sa ++ sb /\ JS.toLowerCase sa = a /\ JS.toLowerCase sb = b.
Proof.
  revert s. induction a as [| c a IH]; intros s H.
  - exists "", s. auto.
  - destruct s as [| d s]; [discriminate |]. cbn in H. inversion H.
    destruct (IH s H2) as (sa & sb & -> & Ha & Hb).
    exists (String d sa), sb. cbn. rewrite Ha. auto.
Qed.

Lemma substring_split (s : string) (m : nat) :
  (m <= String.length s)%nat ->
  s = substring 0 m s ++ substring m (String.length s - m) s.
Proof.
  intros Hm. apply chars_inj. rewrite chars_app, !chars_substring.
  cbn [skipn].
  rewrite (firstn_all2 (n := String.length s - m))
    by (rewrite length_skipn, chars_length; lia).
  symmetry. apply firstn_skipn.
Qed.

Lemma endsWith_iff (s suffix : string) :
  JS.endsWith s suffix = true <-> exists p, s = p ++ suffix.
Proof.
  unfold JS.endsWith. split.
  - intros H. apply andb_prop in H. destruct H as [Hle Heq].
    apply Nat.leb_le in Hle. apply String.eqb_eq in Heq.
    exists (substring 0 (String.length s - String.length suffix) s).
    pose proof (substring_split s (String.length s - String.length suffix)
                  ltac:(lia)) as Hs.
    replace (String.length s - (String.length s - String.length suffix))%nat
      with (String.length suffix) in Hs by lia.
    rewrite Heq in Hs. exact Hs.
  - intros [p ->]. rewrite length_app.
    replace (String.length p + String.length suffix - String.length suffix)%nat
      with (String.length p) by lia.
    pose proof (substring_mid p suffix "") as Hm.
    rewrite string_app_empty in Hm.
    rewrite Hm, String.eqb_refl, andb_true_r.
    apply Nat.leb_le. lia.
Qed.

Lemma lowerChar_dot (c : ascii) :
  JS.lowerChar c = "."%char -> c = "."%char.
Proof.
  destruct c as [[] [] [] [] [] [] [] []]; vm_compute; intros H;
    solve [discriminate H | reflexivity].
Qed.

Lemma lowerChar_p (c : ascii) :
  JS.lowerChar c = "p"%char -> c = "p"%char \/ c = "P"%char.
Proof.
  destruct c as [[] [] [] [] [] [] [] []]; vm_compute; intros H;
    solve [discriminate H | left; reflexivity | right; reflexivity].
Qed.

Lemma lowerChar_d (c : ascii) :
  JS.lowerChar c = "d"%char -> c = "d"%char \/ c = "D"%char.
Proof.
  destruct c as [[] [] [] [] [] [] [] []]; vm_compute; intros H;
    solve [discriminate H | left; reflexivity | right; reflexivity].
Qed.

Lemma lowerChar_f (c : ascii) :
  JS.lowerChar c = "f"%char -> c = "f"%char \/ c = "F"%char.
Proof.
  destruct c as [[] [] [] [] [] [] [] []]; vm_compute; intros H;
    solve [discriminate H | left; reflexivity | right; reflexivity].
Qed.

(** X6.  The suffix test of [validateOptions] accepts exactly the paths that
    end with a dot and the letters p, d, f, each in either case. *)
Theorem X6_pdf_suffix (s : string) :
  hasPdfSuffix s = true <->
  exists p a b c,
    s = p ++ String "." (String a (String b (String c ""))) /\
    (a = "p"%char \/ a = "P"%char) /\ (b = "d"%char \/ b = "D"%char) /\
    (c = "f"%char \/ c = "F"%char).
Proof.
  unfold hasPdfSuffix. rewrite endsWith_iff. split.
  - intros [p' H].
    destruct (toLowerCase_split _ _ _ H) as (p & e & -> & _ & He).
    destruct e as [| c0 [| a [| b [| c [| ? ?]]]]]; try discriminate.
    cbn in He. injection He as H1 H2 H3 H4.
    exists p, a, b, c. rewrite (lowerChar_dot c0) by assumption.
    split; [reflexivity |].
    split; [apply lowerChar_p; assumption |].
    split; [apply lowerChar_d; assumption | apply lowerChar_f; assumption].
  - intros (p & a & b & c & -> & Ha & Hb & Hc).
    exists (JS.toLowerCase p). rewrite toLowerCase_app. f_equal.
    destruct Ha as [-> | ->], Hb as [-> | ->], Hc as [-> | ->]; reflexivity.
Qed.

(** ** The level argument *)

Lemma digitValue_nonneg (radix : Z) (c : ascii) (d : Z) :
  JS.digitValue radix c = Some d -> 0 <= d.
Proof.
  unfold JS.digitValue.
  set (n := Z.of_N (JS.code c)).
  destruct ((48 <=? n) && (n <=? 57)) eqn:H1.
  - destruct (n - 48 <? radix); [| discriminate]. intros H. inversion H. lia.
  - destruct ((97 <=? n) && (n <=? 122)) eqn:H2.
    + destruct (n - 87 <? radix); [| discriminate]. intros H. inversion H.
      lia.
    + destruct ((65 <=? n) && (n <=? 90)) eqn:H3; [| discriminate].
      destruct (n - 55 <? radix); [| discriminate]. intros H. inversion H.
      lia.
Qed.

Lemma digits_nonneg (radix : Z) (s : string) (seen : bool) (acc n : Z) :
  0 <= radix -> 0 <= acc -> JS.digits radix s seen acc = Some n -> 0 <= n.
Proof.
  intros Hr. revert seen acc.
  induction s as [| c s IH]; intros seen acc Hacc; cbn.
  - destruct seen; [| discriminate]. intros H. inversion H. lia.
  - destruct (JS.digitValue radix c) as [d |] eqn:Hd.
    + apply IH. pose proof (digitValue_nonneg _ _ _ Hd). nia.
    + destruct seen; [| discriminate]. intros H. inversion H. lia.
Qed.

Lemma parseInt_minus (s : string) :
  levelInRange (JS.parseInt (String "-" s)) = false.
Proof.
  unfold JS.parseInt. cbn [JS.trimStart].
  change (JS.isWhiteSpace "-") with false. cbv iota.
  set (rs := match s with
             | String "0" (String "x" r) => (16, r)
             | String "0" (String "X" r) => (16, r)
             | _ => (10, s)
             end).
  assert (Hr : 0 <= fst rs).
  { subst rs.
    destruct s as [| c [| c' s']]; cbn; try lia.
    - destruct c as [[] [] [] [] [] [] [] []]; cbv; intros H;
        discriminate H.
    - destruct c as [[] [] [] [] [] [] [] []]; cbn; try lia;
        destruct c' as [[] [] [] [] [] [] [] []];
        cbv; intros H; discriminate H. }
  destruct rs as [radix s']. cbn in Hr.
  destruct (JS.digits radix s' false 0) as [n |] eqn:Hn; [| reflexivity].
  pose proof (digits_nonneg radix s' false 0 n Hr ltac:(lia) Hn).
  cbn [levelInRange]. apply andb_false_iff. left. apply Z.leb_gt. lia.
Qed.

Lemma parseInt_level_prefix (d : Z) (rest : string) :
  1 <= d <= 5 -> startsWithDigit rest = false ->
  JS.parseInt (JS.numberToString d ++ rest) = Some d.
Proof.
  intros Hd Hrest.
  assert (Hr : JS.digits 10 rest true d = Some d).
  { destruct rest as [| c r]; [reflexivity |]. cbn in *.
    destruct (JS.digitValue 10 c); [discriminate | reflexivity]. }
  each_level d Hd; cbn -[JS.digits]; cbn [JS.digits];
    change (JS.digitValue 10 "1") with (Some 1);
    change (JS.digitValue 10 "2") with (Some 2);
    change (JS.digitValue 10 "3") with (Some 3);
    change (JS.digitValue 10 "4") with (Some 4);
    change (JS.digitValue 10 "5") with (Some 5);
    cbv iota; cbn [Z.mul Z.add]; rewrite Hr; reflexivity.
Qed.

(** X7.  For an input path that passes its checks: a level argument that
    starts with a digit from 1 to 5 not followed by another digit is
    accepted as that level, whatever comes after; a level argument that
    starts with a minus sign, and the empty one, fail with
    [InvalidLevel]. *)
Theorem X7_level_reading (fs : Fs.FileSystem) (raw : Raw.Options) :
  Fs.existsSync fs (Raw.input raw) = true ->
  hasPdfSuffix (Raw.input raw) = true ->
  (forall d rest,
      1 <= d <= 5 -> startsWithDigit rest = false ->
      Raw.level raw = JS.numberToString d ++ rest ->
      exists w v,
        validateOptions fs raw = (w, inr v) /\ Validated.level v = d)
  /\
  (forall rest,
      Raw.level raw = String "-" rest ->
      snd (validateOptions fs raw) = inl InvalidLevel)
  /\
  (Raw.level raw = "" -> snd (validateOptions fs raw) = inl InvalidLevel).
Proof.
  intros Hex Hpdf. split; [| split].
  - intros d rest Hd Hrest Hl.
    rewrite validateOptions_cases, Hex, Hpdf, Hl,
      (parseInt_level_prefix d rest Hd Hrest).
    cbn [negb levelInRange].
    replace ((1 <=? d) && (d <=? 5)) with true by lia.
    eexists; eexists; split; reflexivity.
  - intros rest Hl.
    rewrite validateOptions_cases, Hex, Hpdf, Hl, parseInt_minus.
    reflexivity.
  - intros Hl. rewrite validateOptions_cases, Hex, Hpdf, Hl. reflexivity.
Qed.

Lemma X7_level_reading_witness :
  (exists w v,
      validateOptions fsBefore (request "4.9") = (w, inr v)
      /\ Validated.level v = 4)
  /\ snd (validateOptions fsBefore (request "-3")) = inl InvalidLevel.
Proof.
  split.
  - apply (proj1 (X7_level_reading fsBefore (request "4.9") eq_refl eq_refl)
             4 ".9"); [lia | reflexivity | reflexivity].
  - apply (proj1 (proj2 (X7_level_reading fsBefore (request "-3") eq_refl
                           eq_refl)) "3").
    reflexivity.
Defined.

(** ** The spawned process and its arguments *)

Lemma filter_not_in (name : string) (params : list string) :
  ~ In name (map optionName params) ->
  filter (fun p => String.eqb (optionName p) name) params = [].
Proof.
  induction params as [| p rest IH]; intros H; [reflexivity |].
  cbn in *. destruct (String.eqb_spec (optionName p) name) as [Heq |].
  - exfalso. apply H. left. exact Heq.
  - apply IH. intros Hin. apply H. right. exact Hin.
Qed.

(** X8.  Whenever [compressPdf] spawns the engine, the last argument is the
    raw input path, which exists and has the suffix; the vector is the
    level's list and two more arguments, so that a path is one argument
    whatever it contains; exactly one argument before the last names the
    output file, the resolved output; and the recorded input size is the
    size of the input. *)
Theorem X8_spawn_arguments (fs : Fs.FileSystem) (raw : Raw.Options) w run :
  compressPdf fs raw = (w, inr run) ->
  Fs.existsSync fs (last (gsOptions run) "") = true /\
  hasPdfSuffix (last (gsOptions run) "") = true /\
  last (gsOptions run) "" = Raw.input raw /\
  List.length (gsOptions run)
  = (List.length
       (getGsOptionsForLevel (Validated.level (options run))) + 2)%nat /\
  filter (fun p => String.eqb (optionName p) "-sOutputFile")
    (removelast (gsOptions run))
  = ["-sOutputFile=" ++ resolvedOutput raw] /\
  inputSizeBytes run = Fs.statSize fs (Raw.input raw).
Proof.
  intros H.
  destruct (compressPdf_inr _ _ _ _ H)
    as (w' & v & Hv & _ & Hg & Ho & Hi & _).
  destruct (validateOptions_inr _ _ _ _ Hv)
    as (Hex & Hpdf & _ & _ & Hin & Hout & _).
  subst v. rewrite Hg, Hi, Hin, Hout. unfold gsArguments.
  rewrite !app_assoc, last_last, removelast_last, filter_app.
  rewrite filter_not_in by apply getGsOptionsForLevel_names.
  rewrite !List.length_app. cbn [List.length].
  repeat split; try assumption; try reflexivity. lia.
Qed.

Lemma X8_spawn_arguments_witness :
  exists w run,
    compressPdf fsBefore (request "5") = (w, inr run) /\
    List.length (gsOptions run) = 26%nat /\
    last (gsOptions run) "" = "docs/Report.PDF".
Proof.
  destruct (compressPdf fsBefore (request "5")) as [w [e | run]] eqn:H;
    [vm_compute in H; discriminate |].
  destruct (X8_spawn_arguments _ _ _ _ H) as (_ & _ & Hl & Hn & _).
  exists w, run. split; [reflexivity |]. split; [| exact Hl].
  rewrite Hn. vm_compute in H. inversion H. reflexivity.
Defined.

(** ** More on the running process *)

(** What each event does to the bar's switch, the timer and the buffers. *)
Lemma handle_switches (r : Run) (ev : Event) :
  barActive (handle r ev) = barActive r && negb (isTerminal ev) /\
  timerActive (handle r ev) = timerActive r && negb (isTerminal ev) /\
  stdoutData (handle r ev) = stdoutData r ++ stdoutOf [ev] /\
  stderrData (handle r ev) = stderrData r ++ stderrOf [ev].
Proof.
  destruct ev as [| data | data | code fs | c m]; cbn.
  - destruct (timerActive r) eqn:Ht; cbn;
      rewrite ?Ht, ?andb_true_r, ?string_app_empty; auto.
  - unfold onStdoutData. cbn. destruct (Validated.verbose (options r));
      cbn; rewrite ?andb_true_r, ?string_app_empty; auto.
  - unfold onStderrData. cbn. destruct (Validated.verbose (options r));
      cbn; rewrite ?andb_true_r, ?string_app_empty; auto.
  - unfold onClose.
    destruct code as [[| p | p] |]; cbn;
      try destruct (Fs.existsSync fs (Validated.output (options r)));
      settle_cases r; rewrite ?andb_false_r, ?string_app_empty; auto.
  - unfold onError. destruct (String.eqb c "ENOENT"); settle_cases r;
      rewrite ?andb_false_r, ?string_app_empty; auto.
Qed.

Lemma runEvents_switches (evs : list Event) (r : Run) :
  barActive (runEvents r evs)
  = barActive r && forallb (fun ev => negb (isTerminal ev)) evs /\
  timerActive (runEvents r evs)
  = timerActive r && forallb (fun ev => negb (isTerminal ev)) evs /\
  stdoutData (runEvents r evs) = stdoutData r ++ stdoutOf evs /\
  stderrData (runEvents r evs) = stderrData r ++ stderrOf evs.
Proof.
  revert r. induction evs as [| ev evs IH]; intros r.
  - cbn. rewrite !andb_true_r, !string_app_empty. auto.
  - rewrite runEvents_cons.
    destruct (IH (handle r ev)) as (Hb & Ht & Ho & He).
    destruct (handle_switches r ev) as (Hb' & Ht' & Ho' & He').
    rewrite Hb, Ht, Ho, He, Hb', Ht', Ho', He'.
    cbn [forallb]. rewrite !andb_assoc, !string_app_assoc.
    repeat split; f_equal.
    + destruct ev; cbn; rewrite ?string_app_empty; reflexivity.
    + destruct ev; cbn; rewrite ?string_app_empty; reflexivity.
Qed.

(** A settled promise is never settled again. *)
Lemma handle_settled (r : Run) (ev : Event) :
  promise r <> Pending -> promise (handle r ev) = promise r.
Proof.
  intros Hp.
  destruct ev as [| data | data | code fs | c m]; cbn.
  - destruct (timerActive r); reflexivity.
  - unfold onStdoutData. cbn. destruct (Validated.verbose (options r));
      reflexivity.
  - unfold onStderrData. cbn. destruct (Validated.verbose (options r));
      reflexivity.
  - unfold onClose.
    destruct code as [[| p | p] |]; cbn;
      try destruct (Fs.existsSync fs (Validated.output (options r)));
      settle_cases r; congruence.
  - unfold onError. destruct (String.eqb c "ENOENT"); settle_cases r;
      congruence.
Qed.

Lemma runEvents_settled (evs : list Event) (r : Run) :
  promise r <> Pending -> promise (runEvents r evs) = promise r.
Proof.
  revert r. induction evs as [| ev evs IH]; intros r Hp; [reflexivity |].
  rewrite runEvents_cons, IH; [apply handle_settled, Hp |].
  rewrite handle_settled by exact Hp. exact Hp.
Qed.

(** A terminal event settles a pending promise. *)
Lemma handle_terminal_settles (r : Run) (ev : Event) :
  isTerminal ev = true -> promise (handle r ev) <> Pending.
Proof.
  destruct ev as [| data | data | code fs | c m]; try discriminate;
    intros _; cbn.
  - unfold onClose.
    destruct code as [[| p | p] |]; cbn;
      try destruct (Fs.existsSync fs (Validated.output (options r)));
      settle_cases r; congruence.
  - unfold onError. destruct (String.eqb c "ENOENT"); settle_cases r;
      congruence.
Qed.

Lemma runEvents_app (r : Run) (a b : list Event) :
  runEvents r (a ++ b) = runEvents (runEvents r a) b.
Proof. unfold runEvents. apply fold_left_app. Qed.


(** What each event adds to the console. *)
Lemma handle_console (r : Run) (ev : Event) :
  filter isText (console (handle r ev))
  = (filter isText (console r)
     ++ if Validated.verbose (options r) then echoOf [ev] else [])%list.
Proof.
  destruct ev as [| data | data | code fs | c m]; cbn.
  - destruct (timerActive r), (Validated.verbose (options r)); cbn;
      rewrite app_nil_r; reflexivity.
  - unfold onStdoutData. cbn. destruct (Validated.verbose (options r));
      cbn; rewrite ?filter_app, ?app_nil_r; reflexivity.
  - unfold onStderrData. cbn. destruct (Validated.verbose (options r));
      cbn; rewrite ?filter_app, ?app_nil_r; reflexivity.
  - unfold onClose.
    destruct code as [[| p | p] |]; cbn;
      try destruct (Fs.existsSync fs (Validated.output (options r)));
      settle_cases r; rewrite ?filter_app; cbn;
      destruct (Validated.verbose (options r)); rewrite ?app_nil_r;
      reflexivity.
  - unfold onError. destruct (String.eqb c "ENOENT"); settle_cases r;
      destruct (Validated.verbose (options r)); rewrite ?app_nil_r;
      reflexivity.
Qed.

Lemma echoOf_cons (ev : Event) (evs : list Event) :
  echoOf (ev :: evs) = (echoOf [ev] ++ echoOf evs)%list.
Proof. destruct ev; reflexivity. Qed.

Lemma runEvents_console (evs : list Event) (r : Run) :
  filter isText (console (runEvents r evs))
  = (filter isText (console r)
     ++ if Validated.verbose (options r) then echoOf evs else [])%list.
Proof.
  revert r. induction evs as [| ev evs IH]; intros r.
  - cbn. destruct (Validated.verbose (options r)); now rewrite app_nil_r.
  - rewrite runEvents_cons, IH, handle_console.
    rewrite (proj1 (handle_options r ev)), <- app_assoc, (echoOf_cons ev evs).
    destruct (Validated.verbose (options r)); reflexivity.
Qed.

Section MoreSpawned.

Variables (fs : Fs.FileSystem) (raw : Raw.Options).
Variables (w : list LogLine) (run0 : Run).
Hypothesis started : compressPdf fs raw = (w, inr run0).

Lemma run0_fields :
  barValue run0 = 0 /\ barActive run0 = true /\ timerActive run0 = true /\
  stdoutData run0 = "" /\ stderrData run0 = "" /\
  promise run0 = Pending /\ console run0 = [] /\
  inputSizeBytes run0 = Fs.statSize fs (Raw.input raw) /\
  Validated.output (options run0) = resolvedOutput raw /\
  Validated.verbose (options run0) = Raw.verbose raw.
Proof.
  destruct (compressPdf_inr _ _ _ _ started)
    as (w' & v & Hv & _ & _ & Ho & Hi & Hb & Ha & Ht & Hso & Hse & Hp & Hc).
  destruct (validateOptions_inr _ _ _ _ Hv)
    as (_ & _ & _ & _ & Hin & Hout & Hverb & _).
  subst v. rewrite Hi, Hin. repeat split; assumption.
Qed.


(** X10.  When the first terminal event is a spawn error whose code is not
    [ENOENT], the promise is rejected with the start failure that carries
    the error's message; the bar stays at 99 or below and is stopped, the
    timer is cleared and no success is reported. *)
Theorem X10_start_failure (evs : list Event) (errCode errMessage : string) :
  nonterminal evs -> errCode <> "ENOENT" ->
  let r := runEvents run0 (evs ++ [SpawnError errCode errMessage]) in
  promise r = Rejected (EngineStartFailure errMessage) /\
  message (EngineStartFailure errMessage)
  = "Failed to start Ghostscript process: " ++ errMessage /\
  barValue r <= 99 /\ barActive r = false /\ timerActive r = false /\
  successReported r = false.
Proof.
  intros Hn Hcode.
  destruct run0_fields as (Hb0 & _ & _ & _ & _ & Hp0 & Hc0 & _).
  destruct (runEvents_nonterminal evs run0 Hn)
    as (Hp & _ & _ & _ & _ & Hs & Hb).
  cbv zeta. rewrite runEvents_snoc. cbn [handle]. unfold onError.
  rewrite (proj2 (String.eqb_neq errCode "ENOENT") Hcode).
  unfold settle, successReported in *. cbn. rewrite Hp, Hp0. cbn.
  rewrite Hs, Hc0. repeat split; try reflexivity. apply Hb. lia.
Qed.

(** X11.  The promise is pending until the first terminal event, settled by
    it, and unchanged by every event after it: a later exit or error does
    not replace the outcome. *)
Theorem X11_first_terminal_decides
  (evs : list Event) (ev : Event) (rest : list Event) :
  nonterminal evs -> isTerminal ev = true ->
  promise (runEvents run0 evs) = Pending /\
  promise (runEvents run0 (evs ++ [ev])) <> Pending /\
  promise (runEvents run0 (evs ++ ev :: rest))
  = promise (runEvents run0 (evs ++ [ev])).
Proof.
  intros Hn Hev.
  destruct run0_fields as (_ & _ & _ & _ & _ & Hp0 & _).
  destruct (runEvents_nonterminal evs run0 Hn) as (Hp & _).
  split; [congruence |].
  assert (Hs : promise (runEvents run0 (evs ++ [ev])) <> Pending)
    by (rewrite runEvents_snoc; apply handle_terminal_settles, Hev).
  split; [exact Hs |].
  change (ev :: rest) with ([ev] ++ rest)%list.
  rewrite app_assoc, runEvents_app. apply runEvents_settled, Hs.
Qed.


(** X13.  After any events the two buffers hold the standard-output and the
    standard-error chunks in order of arrival; the text lines on the console
    are the trimmed chunks with their prefixes in verbose mode, and none
    otherwise. *)
Theorem X13_output_capture (evs : list Event) :
  stdoutData (runEvents run0 evs) = stdoutOf evs /\
  stderrData (runEvents run0 evs) = stderrOf evs /\
  filter isText (console (runEvents run0 evs))
  = (if Raw.verbose raw then echoOf evs else []).
Proof.
  destruct run0_fields as (_ & _ & _ & Hso & Hse & _ & Hc & _ & _ & Hv).
  destruct (runEvents_switches evs run0) as (_ & _ & Ho & He).
  rewrite Ho, He, Hso, Hse, runEvents_console, Hc, Hv.
  repeat split; reflexivity.
Qed.


End MoreSpawned.

Ltac sample_run w r H :=
  destruct (compressPdf fsBefore (request "3")) as [w [? | r]] eqn:H;
  [vm_compute in H; discriminate |].


Lemma X10_start_failure_witness :
  exists w r,
    compressPdf fsBefore (request "3") = (w, inr r) /\
    promise (runEvents r [Tick; SpawnError "EACCES" "spawn gs EACCES"])
    = Rejected (EngineStartFailure "spawn gs EACCES").
Proof.
  sample_run w r H. exists w, r. split; [reflexivity |].
  apply (X10_start_failure _ _ _ _ H [Tick] "EACCES" "spawn gs EACCES");
    [reflexivity | discriminate].
Defined.

(** The ['close'] that Node emits after a failed spawn changes nothing. *)
Lemma X11_first_terminal_decides_witness :
  exists w r,
    compressPdf fsBefore (request "3") = (w, inr r) /\
    promise (runEvents r [SpawnError "ENOENT" "spawn gs ENOENT";
                          Close (Some (-2)) fsBefore])
    = promise (runEvents r [SpawnError "ENOENT" "spawn gs ENOENT"]).
Proof.
  sample_run w r H. exists w, r. split; [reflexivity |].
  apply (X11_first_terminal_decides _ _ _ _ H []
           (SpawnError "ENOENT" "spawn gs ENOENT")
           [Close (Some (-2)) fsBefore]); reflexivity.
Defined.


Lemma X13_output_capture_witness :
  exists w r,
    compressPdf fsBefore (request "3") = (w, inr r) /\
    stderrData (runEvents r [StderrData "a"; Close (Some 1) fsBefore;
                             StderrData "b"]) = "ab" /\
    filter isText
      (console (runEvents r [StderrData "a"; Close (Some 1) fsBefore;
                             StderrData "b"])) = [].
Proof.
  sample_run w r H. exists w, r. split; [reflexivity |].
  destruct (X13_output_capture _ _ _ _ H
              [StderrData "a"; Close (Some 1) fsBefore; StderrData "b"])
    as (_ & He & Hc).
  rewrite He, Hc. split; reflexivity.
Defined.


(** ** Error messages *)

(** X15.  Errors with the same message are of the same kind; and two
    missing-input errors, or two start failures, with the same message carry
    the same text. *)
Theorem X15_messages_tell_kinds (e e' : Error) :
  message e = message e' ->
  errorKind e = errorKind e' /\
  (forall i i', e = InputNotFound i -> e' = InputNotFound i' -> i = i') /\
  (forall m m', e = EngineStartFailure m -> e' = EngineStartFailure m' ->
                m = m').
Proof.
  intros H. split; [| split].
  - destruct e, e'; cbn in H; try reflexivity; discriminate H.
  - intros i i' -> ->. cbn in H. congruence.
  - intros m m' -> ->. cbn in H. congruence.
Qed.

Lemma X15_messages_tell_kinds_witness :
  errorKind (InputNotFound "a.pdf") = errorKind (InputNotFound "a.pdf").
Proof.
  apply (X15_messages_tell_kinds (InputNotFound "a.pdf")
           (InputNotFound "a.pdf") eq_refl).
Defined.

(** ** The default output as an input *)

Lemma append_inv_head (a b c : string) : a ++ b = a ++ c -> b = c.
Proof.
  induction a as [| x a IH]; cbn; intros H; [exact H |].
  apply IH. congruence.
Qed.

(** A path [pre dir1/.../dirk/f] ends with [f]. *)
Lemma path_ends_with_file (pre : string) (dirs : list string) (f : string) :
  exists P, forall g,
      pre ++ String.concat "/" (dirs ++ [g]) = P ++ g.
Proof.
  destruct dirs as [| d dirs].
  - exists pre. reflexivity.
  - exists (pre ++ String.concat "/" (d :: dirs) ++ "/"). intros g.
    rewrite concat_snoc by discriminate.
    rewrite !string_app_assoc. reflexivity.
Qed.

(** X16.  For an input [dir1/.../dirk/n.x] the default output differs from
    the input and has the suffix, so that it passes the suffix test as an
    input itself, and its own default output is
    [dir1/.../dirk/n-compressed-compressed.pdf]. *)
Theorem X16_default_output_again
  (abs : bool) (dirs : list string) (n x : string) :
  forallb ordinary dirs = true ->
  n <> "" -> slashFree n = true ->
  x <> "" -> plainString x = true ->
  let input := (if abs then "/" else "")
               ++ String.concat "/" (dirs ++ [n ++ "." ++ x]) in
  defaultOutput input <> input /\
  hasPdfSuffix (defaultOutput input) = true /\
  defaultOutput (defaultOutput input)
  = (if abs then "/" else "")
    ++ String.concat "/" (dirs ++ [n ++ "-compressed-compressed.pdf"]).
Proof.
  intros Hdirs Hn Hsn Hx Hpx. cbv zeta.
  rewrite (defaultOutput_shape abs dirs n x) by assumption.
  destruct (path_ends_with_file (if abs then "/" else "") dirs "")
    as [P HP].
  split; [| split].
  - rewrite !HP. intros H. apply append_inv_head in H.
    apply append_inv_head in H. discriminate H.
  - rewrite HP. unfold hasPdfSuffix. apply endsWith_iff.
    exists (JS.toLowerCase (P ++ n ++ "-compressed")).
    replace (P ++ n ++ "-compressed.pdf")
      with ((P ++ n ++ "-compressed") ++ ".pdf")
      by (rewrite !string_app_assoc; reflexivity).
    apply toLowerCase_app.
  - replace (n ++ "-compressed.pdf") with ((n ++ "-compressed") ++ "." ++ "pdf")
      by (rewrite string_app_assoc; reflexivity).
    rewrite (defaultOutput_shape abs dirs (n ++ "-compressed") "pdf");
      try assumption; try reflexivity.
    + rewrite string_app_assoc. reflexivity.
    + destruct n; [congruence | discriminate].
    + rewrite slashFree_app, Hsn. reflexivity.
    + discriminate.
Qed.

Lemma X16_default_output_again_witness :
  defaultOutput (defaultOutput "docs/Report.PDF")
  = "docs/Report-compressed-compressed.pdf".
Proof.
  apply (X16_default_output_again false ["docs"] "Report" "PDF");
    try reflexivity; discriminate.
Defined.
